(** * Scheduler: the Flask application of [app.py]

    A shallow embedding of the schedule service: one table of schedule rows
    behind the SQLAlchemy session, and the HTTP views of [app.py] written in a
    small state-and-exception monad so that each view reads like its Python
    source.

    What [app.py] does itself (the views, their [try]/[except] blocks, the
    dictionary accesses, the column declarations) is transcribed line by line.
    What it delegates to Flask, SQLAlchemy and SQLite is modelled from their
    documented behaviour, and each such definition says so. *)

From Stdlib Require Import ZArith String List Lia.
From stdpp Require Import base option gmap strings list.

Local Open Scope Z_scope.
Local Open Scope string_scope.
Local Open Scope list_scope.

(** ** Python values *)

(** The values a decoded JSON document is made of.  A JSON number with a
    fraction or an exponent is kept as its literal: no view inspects it. *)
#[warnings="-register-all"] Inductive pyval : Type :=
| PNone
| PBool (b : bool)
| PInt (z : Z)
| PFloat (lit : string)
| PStr (s : string)
| PList (l : list pyval)
| PDict (d : gmap string pyval).

(** ** Exceptions *)

(** An exception is its class and its message.  The messages of exceptions
    raised inside the libraries are indicative: the views only copy them into
    the error body, and no property below depends on their text. *)
Inductive exn_class :=
| KeyError
| TypeError
| AttributeError
| FileNotFoundError
| HTTPException (code : Z)
| SQLAlchemyError.

Record exn := mkExn { exn_class_of : exn_class; exn_message : string }.

(** [str(e)] *)
Definition str (e : exn) : string := exn_message e.

Definition http_code (e : exn) : option Z :=
  match exn_class_of e with
  | HTTPException c => Some c
  | _ => None
  end.

Definition MethodNotAllowed : exn :=
  mkExn (HTTPException 405)
        "405 Method Not Allowed: The method is not allowed for the requested URL.".

Definition NotFound : exn :=
  mkExn (HTTPException 404)
        "404 Not Found: The requested URL was not found on the server. If you entered the URL manually please check your spelling and try again.".

Inductive result (A : Type) : Type :=
| Ok (a : A)
| Raise (e : exn).
Arguments Ok {A} a.
Arguments Raise {A} e.

#[global] Instance result_ret : MRet result := @Ok.
#[global] Instance result_bind : MBind result :=
  λ A B f r, match r with Ok a => f a | Raise e => Raise e end.

(** ** The model class [Schedule] and its table *)

(** A [Schedule] object as Python sees it: six attributes, each holding
    whatever was assigned to it. *)
Record Schedule := mkSchedule {
  id : pyval;
  date : pyval;
  user : pyval;
  checkInTime : pyval;
  exercised : pyval;
  reflection : pyval
}.

Definition set_checkInTime (v : pyval) (s : Schedule) : Schedule :=
  mkSchedule (id s) (date s) (user s) v (exercised s) (reflection s).
Definition set_exercised (v : pyval) (s : Schedule) : Schedule :=
  mkSchedule (id s) (date s) (user s) (checkInTime s) v (reflection s).
Definition set_reflection (v : pyval) (s : Schedule) : Schedule :=
  mkSchedule (id s) (date s) (user s) (checkInTime s) (exercised s) v.

(** A row of table [schedule] as the columns declare it: [id] is the integer
    primary key, [date] and [user] are [nullable=False] strings, the other
    three columns accept NULL. *)
Record row := mkRow {
  row_id : Z;
  row_date : string;
  row_user : string;
  row_checkInTime : option string;
  row_exercised : option bool;
  row_reflection : option string
}.

Definition of_text (o : option string) : pyval :=
  match o with Some s => PStr s | None => PNone end.
Definition of_boolean (o : option bool) : pyval :=
  match o with Some b => PBool b | None => PNone end.

(** The object the ORM builds from a row. *)
Definition load (r : row) : Schedule :=
  mkSchedule (PInt (row_id r)) (PStr (row_date r)) (PStr (row_user r))
             (of_text (row_checkInTime r)) (of_boolean (row_exercised r))
             (of_text (row_reflection r)).

(** [Schedule.to_dict] on the attribute values of an object. *)
Definition to_dict_of (s : Schedule) : pyval :=
  PDict (<["id" := id s]>
        (<["date" := date s]>
        (<["user" := user s]>
        (<["checkInTime" := checkInTime s]>
        (<["exercised" := exercised s]>
        (<["reflection" := reflection s]> ∅)))))).

(** ** The world a request runs in *)

(** What the program does not control. [fault] is the error the database
    engine answers every statement with while it is unreachable ([None] when
    it works); it does not change while one request is served.
    [static_exists p] is [os.path.exists(os.path.join(app.static_folder, p))]
    and [static_file p] the content [send_from_directory] finds for [p] under
    the static folder ([None]: it raises [NotFound]); nothing relates the two,
    so directories and rejected paths are covered. *)
Record env := mkEnv {
  fault : option string;
  static_exists : string → bool;
  static_file : string → option string;
  today : string;
  db_on_disk : bool
}.

(** An object of the Python heap: its state in the session and its
    attributes.  [Persistent k] is the identity key of row [k]. *)
Inductive ostate := Transient | Pending | Persistent (key : Z).

Record object := mkObject { state_of : ostate; attrs : Schedule }.

Definition ref := nat.

(** [inactive] is set when a flush has failed: the database has rolled the
    transaction back, and the session refuses every further statement until
    [rollback()] is called on it or it is closed. *)
Record world := mkWorld {
  environment : env;
  table : list row;
  heap : list object;
  inactive : bool
}.

(** The world as a request finds it: a fresh scoped session, no objects. *)
Definition fresh (e : env) (tbl : list row) : world := mkWorld e tbl [] false.

Definition with_heap (h : list object) (w : world) : world :=
  mkWorld (environment w) (table w) h (inactive w).

(** ** Computations: state that survives a raised exception *)

Definition M (A : Type) : Type := world → result A * world.

#[global] Instance M_ret : MRet M := λ A a w, (Ok a, w).
#[global] Instance M_bind : MBind M :=
  λ A B f c w, match c w with
               | (Ok a, w') => f a w'
               | (Raise e, w') => (Raise e, w')
               end.

Definition raise {A} (e : exn) : M A := λ w, (Raise e, w).

(** [try: c  except Exception as e: h e] *)
Definition try_except {A} (c : M A) (h : exn → M A) : M A :=
  λ w, match c w with
       | (Ok a, w') => (Ok a, w')
       | (Raise e, w') => h e w'
       end.

Definition ask : M env := λ w, (Ok (environment w), w).
Definition rows : M (list row) := λ w, (Ok (table w), w).

(** ** Dictionary access on the request body *)

Definition type_name (v : pyval) : string :=
  match v with
  | PNone => "NoneType"
  | PBool _ => "bool"
  | PInt _ => "int"
  | PFloat _ => "float"
  | PStr _ => "str"
  | PList _ => "list"
  | PDict _ => "dict"
  end.

Definition subscript_error (v : pyval) : string :=
  match v with
  | PList _ => "list indices must be integers or slices, not str"
  | PStr _ => "string indices must be integers, not 'str'"
  | _ => "'" +:+ type_name v +:+ "' object is not subscriptable"
  end.

Definition attribute_error (v : pyval) (name : string) : string :=
  "'" +:+ type_name v +:+ "' object has no attribute '" +:+ name +:+ "'".

(** [data[k]] for a string key [k]. *)
Definition getitem (data : pyval) (k : string) : M pyval :=
  match data with
  | PDict d =>
      match d !! k with
      | Some v => mret v
      | None => raise (mkExn KeyError ("'" +:+ k +:+ "'"))
      end
  | v => raise (mkExn TypeError (subscript_error v))
  end.

(** [data.get(k, dflt)]; [data.get(k)] is [dict_get data k PNone]. *)
Definition dict_get (data : pyval) (k : string) (dflt : pyval) : M pyval :=
  match data with
  | PDict d => mret (default dflt (d !! k))
  | v => raise (mkExn AttributeError (attribute_error v "get"))
  end.

(** The body of a request: a decoded JSON document, or the exception
    [request.json] raises when the body is not JSON. *)
Inductive payload :=
| Json (v : pyval)
| NotJson (e : exn).

Definition request_json (p : payload) : M pyval :=
  match p with
  | Json v => mret v
  | NotJson e => raise e
  end.

(** ** Responses *)

Inductive content :=
| JsonBody (v : pyval)
| TextBody (s : string)
| FileBody (data : string)
| Attachment (download_name : string).

Record response := mkResponse { status : Z; body : content }.

Definition jsonify (v : pyval) (code : Z) : response := mkResponse code (JsonBody v).

Definition error_body (msg : string) : pyval := PDict {["error" := PStr msg]}.

(** ** The table *)

(** The rowid SQLite gives an [INTEGER PRIMARY KEY] column on insert: one
    more than the largest rowid in the table, 1 in an empty table.  (Rowids
    are 64-bit; the probing SQLite falls back to once the largest one is
    2^63-1 is outside this model.) *)
Definition next_rowid (tbl : list row) : Z :=
  match row_id <$> tbl with
  | [] => 1
  | k :: ks => 1 + foldr Z.max k ks
  end.

Definition find_row (k : Z) (tbl : list row) : option row :=
  head (filter (λ r, row_id r = k) tbl).

(** [UPDATE schedule SET ... WHERE id = row_id r'] *)
Definition store_row (r' : row) (tbl : list row) : list row :=
  (λ r, if decide (row_id r = row_id r') then r' else r) <$> tbl.

Definition db_error {A} (msg : string) : result A := Raise (mkExn SQLAlchemyError msg).

Definition not_null {A} (column : string) (o : option A) : result A :=
  match o with
  | Some a => Ok a
  | None => db_error ("NOT NULL constraint failed: schedule." +:+ column)
  end.

(** On INSERT the ORM leaves a [None] attribute out of the statement, so a
    column declared with [default=...] takes its default. *)
Definition apply_default (dflt v : pyval) : pyval :=
  match v with PNone => dflt | _ => v end.

(** ** Request bodies of the declared shape *)

(** A value a nullable string column takes as it is, and one the boolean
    column takes as it is. *)
Definition is_text (v : pyval) : bool :=
  match v with PNone | PStr _ => true | _ => false end.
Definition is_boolean (v : pyval) : bool :=
  match v with PNone | PBool _ => true | _ => false end.
Definition is_bool (v : pyval) : bool :=
  match v with PBool _ => true | _ => false end.

(** Key [k], when the body supplies it, holds a value that passes [ok]. *)
Definition supplies (ok : pyval → bool) (d : gmap string pyval) (k : string) : bool :=
  match d !! k with Some v => ok v | None => true end.

(** The three assignments of [update_schedule] on the attributes of an
    object. *)
Definition updated (d : gmap string pyval) (s : Schedule) : Schedule :=
  set_reflection (default (reflection s) (d !! "reflection"))
    (set_exercised (default (exercised s) (d !! "exercised"))
      (set_checkInTime (default (checkInTime s) (d !! "checkInTime")) s)).

(** ** A concrete deployment, for the worked examples *)

Module Sample.

(** A reachable database and a static folder that holds [index.html] and
    one script. *)
Definition site : env :=
  mkEnv None
        (λ p, String.eqb p "index.html" || String.eqb p "main.js" || String.eqb p "static")
        (λ p, if String.eqb p "index.html" then Some "<!doctype html>"
              else if String.eqb p "main.js" then Some "render()"
              else None)
        "20240101" true.

Definition alice : row := mkRow 1 "2024-01-01" "alice" None (Some false) None.
Definition bob : row := mkRow 2 "2024-01-01" "bob" (Some "07:30") (Some true) None.
Definition stored : list row := [alice; bob].

Definition exercised_only : gmap string pyval := {["exercised" := PBool true]}.
Definition new_entry : gmap string pyval :=
  <["date" := PStr "2024-02-02"]> {["user" := PStr "carol"]}.
Definition no_user : gmap string pyval := {["date" := PStr "2024-02-02"]}.

(** A driver that binds nothing but values of the column's own type. *)
Definition strict_text : pyval → option string := λ _, None.
Definition strict_boolean : pyval → option bool := λ _, None.

End Sample.

(** ** More of the deployment, for the scenarios *)

Module Fixtures.
Import Sample.

(** The database out of reach, and a static folder without [index.html]. *)
Definition down : env :=
  mkEnv (Some "unable to open database file") (λ _, false) (λ _, None) "20240101" false.
Definition no_index : env := mkEnv None (λ _, false) (λ _, None) "20240101" true.

(** Bodies that carry keys the views do not read, and bodies with nulls. *)
Definition forged_entry : gmap string pyval := <["id" := PInt 99]> new_entry.
Definition forged_update : gmap string pyval :=
  <["id" := PInt 99]> (<["user" := PStr "mallory"]> exercised_only).
Definition empty_body : gmap string pyval := ∅.
Definition clear_time : gmap string pyval := {["checkInTime" := PNone]}.
Definition null_date : gmap string pyval := <["date" := PNone]> new_entry.
Definition null_exercised : gmap string pyval := <["exercised" := PNone]> new_entry.

(** A second record of bob on the same day. *)
Definition bob_again : row := mkRow 3 "2024-01-01" "bob" None None None.

End Fixtures.

Section Application.

(** What the database driver makes of a value that is not of the column's
    Python type (an integer bound to a string column, a string bound to the
    boolean column, ...): the stored value, or [None] when binding raises.
    The development holds for every such driver. *)
Variable coerce_text : pyval → option string.
Variable coerce_boolean : pyval → option bool.

(** Binding an attribute to a [String]/[Text] column (SQLite enforces no
    length) and to the [Boolean] column. *)
Definition bind_text (v : pyval) : result (option string) :=
  match v with
  | PNone => Ok None
  | PStr s => Ok (Some s)
  | _ => match coerce_text v with
         | Some s => Ok (Some s)
         | None => db_error ("type '" +:+ type_name v +:+ "' is not supported")
         end
  end.

Definition bind_boolean (v : pyval) : result (option bool) :=
  match v with
  | PNone => Ok None
  | PBool b => Ok (Some b)
  | _ => match coerce_boolean v with
         | Some b => Ok (Some b)
         | None => db_error ("Not a boolean value: " +:+ type_name v)
         end
  end.

(** The row a statement writes for an object: every attribute bound to its
    column, then the NOT NULL constraints of [date] and [user].  [insert]
    tells an INSERT (the default of [exercised] applies) from an UPDATE. *)
Definition bind_columns (k : Z) (insert : bool) (s : Schedule) : result row :=
  d ← bind_text (date s);
  u ← bind_text (user s);
  c ← bind_text (checkInTime s);
  e ← bind_boolean (if insert then apply_default (PBool false) (exercised s)
                    else exercised s);
  r ← bind_text (reflection s);
  d ← not_null "date" d;
  u ← not_null "user" u;
  mret (mkRow k d u c e r).

(** ** The session *)

(** The unit of work: pending objects are inserted, persistent ones written
    back, in the order the session holds them.  The table passed along is
    the one the open transaction sees.  A persistent object is written back
    whole: an attribute that still holds what was loaded binds to the value
    of the row again ([bind_columns_load] below), so this is the UPDATE of
    the changed attributes. *)
Fixpoint flush (objs : list object) (tbl : list row) : result (list row * list object) :=
  match objs with
  | [] => mret (tbl, [])
  | ob :: rest =>
      match state_of ob with
      | Transient =>
          '(tbl', rest') ← flush rest tbl;
          mret (tbl', ob :: rest')
      | Pending =>
          r ← bind_columns (next_rowid tbl) true (attrs ob);
          '(tbl', rest') ← flush rest (tbl ++ [r]);
          mret (tbl', mkObject (Persistent (row_id r)) (attrs ob) :: rest')
      | Persistent k =>
          r ← bind_columns k false (attrs ob);
          '(tbl', rest') ← flush rest (store_row r tbl);
          mret (tbl', ob :: rest')
      end
  end.

(** An expired object shows its row again on the next attribute access. *)
Definition refresh (tbl : list row) (ob : object) : object :=
  match state_of ob with
  | Persistent k =>
      match find_row k tbl with
      | Some r => mkObject (Persistent k) (load r)
      | None => ob
      end
  | _ => ob
  end.

Definition expunge (ob : object) : object :=
  match state_of ob with
  | Pending => mkObject Transient (attrs ob)
  | _ => ob
  end.

(** What a rollback leaves of the objects: pending ones are out of the
    session, persistent ones are expired. *)
Definition restored (w : world) : list object :=
  (λ ob, refresh (table w) (expunge ob)) <$> heap w.

(** [db.session.rollback()] *)
Definition session_rollback : M unit :=
  λ w, (Ok (), mkWorld (environment w) (table w) (restored w) false).

(** A flush that raises: SQLAlchemy issues the ROLLBACK and restores the
    objects before it re-raises, and leaves the session inactive. *)
Definition flush_failed {A} (e : exn) : M A :=
  λ w, (Raise e, mkWorld (environment w) (table w) (restored w) true).

Definition pending_rollback : exn :=
  mkExn SQLAlchemyError
        "This Session's transaction has been rolled back due to a previous exception during flush.".

(** [db.session.commit()]: flush, then make the transaction durable and
    expire every object; the reload that the next attribute access triggers
    is done here, the database being as reachable then as it was for the
    flush.  (The views commit with an object to write, so the flush always
    reaches the database.) *)
Definition session_commit : M unit :=
  λ w, if inactive w then (Raise pending_rollback, w)
       else match fault (environment w) with
            | Some msg => flush_failed (mkExn SQLAlchemyError msg) w
            | None =>
                match flush (heap w) (table w) with
                | Ok (tbl', h') =>
                    (Ok (), mkWorld (environment w) tbl' (refresh tbl' <$> h') false)
                | Raise e => flush_failed e w
                end
            end.

(** Flask-SQLAlchemy removes the scoped session when the application
    context of the request is torn down. *)
Definition shutdown_session (w : world) : world :=
  mkWorld (environment w) (table w) [] false.

(** A statement sent to the database: refused by an inactive session, failed
    by an unreachable engine. *)
Definition connect : M unit :=
  λ w, if inactive w then (Raise pending_rollback, w)
       else match fault (environment w) with
            | Some msg => (Raise (mkExn SQLAlchemyError msg), w)
            | None => (Ok (), w)
            end.

(** The rows of a result become persistent objects of the session.  Every
    view runs one query at most and runs it before it changes any object, so
    neither the identity map (a row met twice) nor autoflush comes into
    play. *)
Definition materialize (rs : list row) : M (list ref) :=
  λ w, (Ok (seq (length (heap w)) (length rs)),
        with_heap (heap w ++ ((λ r, mkObject (Persistent (row_id r)) (load r)) <$> rs)) w).

(** [Schedule.query.filter_by(...).all()], [Schedule.query.all()] with the
    predicate that holds of every row. *)
Definition query_all (P : row → Prop) `{∀ r, Decision (P r)} : M (list ref) :=
  connect;; rs ← rows; materialize (filter P rs).

(** [Schedule.query.filter_by(...).first()] *)
Definition query_first (P : row → Prop) `{∀ r, Decision (P r)} : M (option ref) :=
  connect;; rs ← rows; os ← materialize (take 1 (filter P rs)); mret (head os).

(** [Schedule.query.get_or_404(id)] *)
Definition get_or_404 (k : Z) : M ref :=
  o ← query_first (λ r, row_id r = k);
  match o with
  | Some schedule => mret schedule
  | None => raise NotFound
  end.

(** [db.session.execute(db.select(Schedule))]: the statement runs, no row is
    fetched. *)
Definition session_execute_select : M unit := connect.

Definition dangling {A} : M A :=
  raise (mkExn AttributeError "object is gone").

(** [Schedule(date=d, user=u, checkInTime=c, exercised=e, reflection=r)] *)
Definition Schedule_new (d u c e r : pyval) : M ref :=
  λ w, (Ok (length (heap w)),
        with_heap (heap w ++ [mkObject Transient (mkSchedule PNone d u c e r)]) w).

(** [db.session.add(o)] *)
Definition session_add (o : ref) : M unit :=
  λ w, (Ok (),
        with_heap (alter (λ ob, match state_of ob with
                                | Transient => mkObject Pending (attrs ob)
                                | _ => ob
                                end) o (heap w)) w).

(** [o.f] and [o.f = v] *)
Definition getattr (o : ref) (f : Schedule → pyval) : M pyval :=
  λ w, match heap w !! o with
       | Some ob => (Ok (f (attrs ob)), w)
       | None => dangling w
       end.

Definition setattr (o : ref) (f : pyval → Schedule → Schedule) (v : pyval) : M unit :=
  λ w, (Ok (), with_heap (alter (λ ob, mkObject (state_of ob) (f v (attrs ob))) o (heap w)) w).

(** [o.to_dict()] *)
Definition to_dict (o : ref) : M pyval :=
  λ w, match heap w !! o with
       | Some ob => (Ok (to_dict_of (attrs ob)), w)
       | None => dangling w
       end.

(** [[s.to_dict() for s in schedules]] *)
Fixpoint to_dict_all (schedules : list ref) : M (list pyval) :=
  match schedules with
  | [] => mret []
  | s :: rest => v ← to_dict s; vs ← to_dict_all rest; mret (v :: vs)
  end.

(** ** The views *)

Definition on_error (e : exn) : M response :=
  mret (jsonify (error_body (str e)) 500).

Definition get_schedules : M response :=
  try_except
    (schedules ← query_all (λ _, True);
     ds ← to_dict_all schedules;
     mret (jsonify (PList ds) 200))
    on_error.

Definition add_schedule (p : payload) : M response :=
  try_except
    (data ← request_json p;
     d ← getitem data "date";
     u ← getitem data "user";
     c ← dict_get data "checkInTime" PNone;
     e ← dict_get data "exercised" (PBool false);
     r ← dict_get data "reflection" PNone;
     new_schedule ← Schedule_new d u c e r;
     session_add new_schedule;;
     session_commit;;
     v ← to_dict new_schedule;
     mret (jsonify v 201))
    on_error.

Definition update_schedule (k : Z) (p : payload) : M response :=
  try_except
    (schedule ← get_or_404 k;
     data ← request_json p;
     old ← getattr schedule checkInTime;
     v ← dict_get data "checkInTime" old;
     setattr schedule set_checkInTime v;;
     old ← getattr schedule exercised;
     v ← dict_get data "exercised" old;
     setattr schedule set_exercised v;;
     old ← getattr schedule reflection;
     v ← dict_get data "reflection" old;
     setattr schedule set_reflection v;;
     session_commit;;
     v ← to_dict schedule;
     mret (jsonify v 200))
    on_error.

Definition get_schedule (u d : string) : M response :=
  try_except
    (schedule ← query_first (λ r, row_user r = u ∧ row_date r = d);
     match schedule with
     | Some s => v ← to_dict s; mret (jsonify v 200)
     | None => mret (jsonify (PDict {["message" := PStr "Schedule not found"]}) 404)
     end)
    on_error.

Definition get_user_schedules (u : string) : M response :=
  try_except
    (schedules ← query_all (λ r, row_user r = u);
     ds ← to_dict_all schedules;
     mret (jsonify (PList ds) 200))
    on_error.

(** [send_from_directory(app.static_folder, path)] *)
Definition send_from_directory (path : string) : M response :=
  e ← ask;
  match static_file e path with
  | Some data => mret (mkResponse 200 (FileBody data))
  | None => raise NotFound
  end.

(** [app.send_static_file(filename)] *)
Definition send_static_file (filename : string) : M response :=
  send_from_directory filename.

Definition serve (path : string) : M response :=
  e ← ask;
  if negb (String.eqb path "") && static_exists e path
  then send_from_directory path
  else send_from_directory "index.html".

Definition test_db : M response :=
  try_except
    (session_execute_select;;
     mret (mkResponse 200 (TextBody "Database connection successful")))
    (λ e, mret (mkResponse 200 (TextBody ("Database connection failed: " +:+ str e)))).

Definition not_found (error : exn) : M response :=
  send_static_file "index.html".

Definition internal_error (error : exn) : M response :=
  session_rollback;;
  mret (jsonify (error_body "Internal server error") 500).

(** [send_file(db_path, as_attachment=True, download_name=...)] *)
Definition send_file (download_name : string) : M response :=
  e ← ask;
  if db_on_disk e then mret (mkResponse 200 (Attachment download_name))
  else raise (mkExn FileNotFoundError "scheduler.db").

Definition download_db : M response :=
  try_except
    (e ← ask;
     send_file ("scheduler_" +:+ today e +:+ ".db"))
    (λ _, mret (jsonify (error_body "Failed to download database") 500)).

(** ** Routing and error handlers *)

(** A request, by the URL rule that matches it.  [GET_static] is the rule
    Flask itself registers for [static_url_path=''], [Not_allowed] a request
    whose path a rule matches but whose method no matching rule allows (a POST
    to a static path, a PUT to /api/schedules/-1, which the [int] converter
    does not take: the router raises [MethodNotAllowed]), [Unmatched] a request no
    rule matches (the router raises [NotFound]); with the catch-all rule no
    GET is of that kind, and it stands for whatever reaches the 404 handler
    from the router. *)
Inductive request :=
| GET_schedules
| POST_schedules (p : payload)
| PUT_schedule (k : Z) (p : payload)
| GET_schedule (u d : string)
| GET_user_schedules (u : string)
| GET_serve (path : string)
| GET_static (filename : string)
| GET_test_db
| GET_download_db
| Not_allowed
| Unmatched.

Definition dispatch_request (req : request) : M response :=
  match req with
  | GET_schedules => get_schedules
  | POST_schedules p => add_schedule p
  | PUT_schedule k p => update_schedule k p
  | GET_schedule u d => get_schedule u d
  | GET_user_schedules u => get_user_schedules u
  | GET_serve path => serve path
  | GET_static filename => send_static_file filename
  | GET_test_db => test_db
  | GET_download_db => download_db
  | Not_allowed => raise MethodNotAllowed
  | Unmatched => raise NotFound
  end.

(** An exception that leaves a view or an error handler unhandled: the
    handler registered for 500. *)
Definition handle_exception (e : exn) : world → response * world :=
  λ w, match internal_error e w with
       | (Ok r, w') => (r, w')
       | (Raise _, w') => (mkResponse 500 (TextBody "Internal Server Error"), w')
       end.

(** An exception that leaves a view: the handlers registered with
    [@app.errorhandler] for 404 and 500; any other HTTP error is its own
    response. *)
Definition handle_user_exception (e : exn) : world → response * world :=
  λ w, match http_code e with
       | Some 404 =>
           match not_found e w with
           | (Ok r, w') => (r, w')
           | (Raise e', w') => handle_exception e' w'
           end
       | Some 500 => handle_exception e w
       | Some c => (mkResponse c (TextBody (str e)), w)
       | None => handle_exception e w
       end.

Definition full_dispatch_request (req : request) : world → response * world :=
  λ w, match dispatch_request req w with
       | (Ok r, w') => (r, w')
       | (Raise e, w') => handle_user_exception e w'
       end.

(** One request from start to end: dispatch, then the teardown of the
    application context. *)
Definition wsgi_app (req : request) (e : env) (tbl : list row) : response * list row :=
  let '(r, w) := full_dispatch_request req (fresh e tbl) in
  (r, table (shutdown_session w)).

(** A run of the server: each request arrives with the state of the
    environment at that time. *)
Fixpoint serve_all (reqs : list (env * request)) (tbl : list row) : list response * list row :=
  match reqs with
  | [] => ([], tbl)
  | (e, req) :: rest =>
      let '(r, tbl') := wsgi_app req e tbl in
      let '(rs, tbl'') := serve_all rest tbl' in
      (r :: rs, tbl'')
  end.

(** ** Vocabulary of the properties *)

Definition mutating (req : request) : bool :=
  match req with
  | POST_schedules _ | PUT_schedule _ _ => true
  | _ => false
  end.

(** An object of the session carries no write: it is not pending, and a
    persistent one shows the attributes of its row. *)
Definition unmodified (w : world) (ob : object) : Prop :=
  match state_of ob with
  | Transient => True
  | Pending => False
  | Persistent k => ∃ r, find_row k (table w) = Some r ∧ attrs ob = load r
  end.

Definition session_clean (w : world) : Prop := Forall (unmodified w) (heap w).

(** The body holds key [k]. *)
Definition has_key (v : pyval) (k : string) : bool :=
  match v with
  | PDict d => bool_decide (is_Some (d !! k))
  | _ => false
  end.

Definition persistent (r : row) : object := mkObject (Persistent (row_id r)) (load r).

(** The views of the API: every route but the static ones. *)
Definition api (req : request) : bool :=
  match req with
  | GET_serve _ | GET_static _ | Not_allowed | Unmatched => false
  | _ => true
  end.

(** Routes whose first action is a statement sent to the database. *)
Definition queries_first (req : request) : bool :=
  match req with
  | GET_schedules | PUT_schedule _ _ | GET_schedule _ _ | GET_user_schedules _ => true
  | _ => false
  end.

(** The request is a PUT on id [k]. *)
Definition targets (k : Z) (req : request) : bool :=
  match req with
  | PUT_schedule k' _ => bool_decide (k' = k)
  | _ => false
  end.

(** Two bodies hold the same value, or both none, under every key of [keys]. *)
Definition agree (keys : list string) (d1 d2 : gmap string pyval) : Prop :=
  Forall (λ k, d1 !! k = d2 !! k) keys.

(** The row at position [i] (from 0) has id [i + 1]. *)
Definition dense (tbl : list row) : Prop :=
  ∀ (i : nat) r, tbl !! i = Some r → row_id r = Z.of_nat i + 1.

(** The row [r] under another id. *)
Definition with_id (k : Z) (r : row) : row :=
  mkRow k (row_date r) (row_user r) (row_checkInTime r) (row_exercised r)
        (row_reflection r).


(** Unfolds the primitives of a view down to functions on the world. *)
Ltac run_view :=
  unfold try_except, get_or_404, query_first, query_all, session_execute_select,
    connect, rows, materialize, raise, getattr, setattr, dict_get, getitem,
    request_json, to_dict, on_error, Schedule_new, session_add, ask, dangling,
    mbind, M_bind, mret, M_ret; simpl.

(** * Properties *)

Arguments to_dict_of : simpl never.
Arguments error_body : simpl never.

(** ** The table *)

Lemma find_row_Some k tbl r : find_row k tbl = Some r → r ∈ tbl ∧ row_id r = k.
Proof.
  unfold find_row. intros H. apply head_Some in H as [l H].
  assert (Hin : r ∈ filter (λ r, row_id r = k) tbl) by (rewrite H; left).
  apply list_elem_of_filter in Hin. tauto.
Qed.

Lemma find_row_None k tbl : find_row k tbl = None ↔ k ∉ fmap row_id tbl.
Proof.
  unfold find_row. rewrite head_None. split.
  - intros H Hin. apply list_elem_of_fmap in Hin as (r & -> & Hr).
    assert (Hf : r ∈ filter (λ x, row_id x = row_id r) tbl)
      by (apply list_elem_of_filter; auto).
    rewrite H in Hf. inversion Hf.
  - intros H. destruct (filter _ tbl) as [|r l] eqn:E; [done|].
    exfalso. apply H.
    assert (Hf : r ∈ filter (λ x, row_id x = k) tbl) by (rewrite E; left).
    apply list_elem_of_filter in Hf as [<- Hf].
    apply list_elem_of_fmap. eauto.
Qed.

Lemma find_row_unique k tbl r :
  NoDup (fmap row_id tbl) → r ∈ tbl → row_id r = k → find_row k tbl = Some r.
Proof.
  unfold find_row. induction tbl as [|x tbl IH]; intros Hnd Hin Hk.
  - inversion Hin.
  - apply NoDup_cons in Hnd as [Hx Hnd]. rewrite filter_cons.
    destruct (decide (row_id x = k)) as [Hxk|Hxk].
    + apply elem_of_cons in Hin as [->|Hin]; [done|].
      exfalso. apply Hx. rewrite Hxk, <- Hk. apply list_elem_of_fmap. eauto.
    + apply elem_of_cons in Hin as [->|Hin]; [congruence|]. auto.
Qed.

Lemma store_row_ids r' tbl : fmap row_id (store_row r' tbl) = fmap row_id tbl.
Proof.
  unfold store_row. rewrite <- list_fmap_compose. apply list_fmap_ext.
  intros i x _. simpl. by destruct (decide (row_id x = row_id r')) as [->|].
Qed.

Lemma find_row_store_row r r' tbl :
  find_row (row_id r') tbl = Some r → find_row (row_id r') (store_row r' tbl) = Some r'.
Proof.
  unfold find_row, store_row. induction tbl as [|x tbl IH]; simpl; [done|].
  rewrite !filter_cons. destruct (decide (row_id x = row_id r')) as [E|E]; simpl.
  - rewrite decide_True by done. done.
  - rewrite decide_False by done. done.
Qed.

Lemma store_row_insert r' tbl (i : nat) r :
  NoDup (fmap row_id tbl) → tbl !! i = Some r → row_id r' = row_id r →
  store_row r' tbl = <[i:=r']> tbl.
Proof.
  unfold store_row. revert i. induction tbl as [|x tbl IH]; intros i Hnd Hi Hk; [done|].
  apply NoDup_cons in Hnd as [Hx Hnd]. destruct i as [|i]; simpl in *.
  - injection Hi as ->. rewrite decide_True by done. f_equal.
    rewrite <- (list_fmap_id tbl) at 2. apply list_fmap_ext. intros j y Hy.
    destruct (decide (row_id y = row_id r')) as [E|]; [|done].
    exfalso. apply Hx. rewrite <- Hk, <- E. apply list_elem_of_fmap.
    exists y. split; [done|]. by eapply list_elem_of_lookup_2.
  - rewrite decide_False.
    + f_equal. by apply IH.
    + intros E. apply Hx. rewrite E, Hk. apply list_elem_of_fmap.
      exists r. split; [done|]. by eapply list_elem_of_lookup_2.
Qed.

Lemma next_rowid_above tbl r : r ∈ tbl → row_id r < next_rowid tbl.
Proof.
  unfold next_rowid. intros Hin.
  apply (list_elem_of_fmap_2 row_id) in Hin. revert Hin.
  generalize (row_id r) as k. generalize (fmap row_id tbl) as ks.
  intros ks. destruct ks as [|k0 ks]; intros k Hin; [inversion Hin|].
  enough (k ≤ foldr Z.max k0 ks)%Z by lia.
  revert k0 Hin. induction ks as [|k1 ks IH]; intros k0 Hin; simpl.
  - apply elem_of_cons in Hin as [->|Hin]; [lia|inversion Hin].
  - apply elem_of_cons in Hin as [->|Hin].
    + specialize (IH k0 ltac:(left)). lia.
    + apply elem_of_cons in Hin as [->|Hin]; [lia|].
      specialize (IH k0 ltac:(by right)). lia.
Qed.

(** ** The session primitives on the world of a request *)


Lemma query_first_run (P : row → Prop) `{∀ r, Decision (P r)} e tbl :
  query_first P (fresh e tbl) =
  match fault e with
  | Some msg => (Raise (mkExn SQLAlchemyError msg), fresh e tbl)
  | None =>
      match filter P tbl with
      | [] => (Ok None, fresh e tbl)
      | r :: _ => (Ok (Some 0%nat), mkWorld e tbl [persistent r] false)
      end
  end.
Proof.
  run_view. destruct (fault e); [done|]. simpl.
  by destruct (filter P tbl).
Qed.

Lemma get_or_404_run k e tbl :
  get_or_404 k (fresh e tbl) =
  match fault e with
  | Some msg => (Raise (mkExn SQLAlchemyError msg), fresh e tbl)
  | None =>
      match find_row k tbl with
      | Some r => (Ok 0%nat, mkWorld e tbl [persistent r] false)
      | None => (Raise NotFound, fresh e tbl)
      end
  end.
Proof.
  unfold get_or_404. unfold mbind at 1, M_bind at 1. rewrite query_first_run.
  unfold find_row. destruct (fault e); [done|].
  by destruct (filter _ tbl).
Qed.

Lemma to_dict_all_run e tbl rs : ∀ h0,
  to_dict_all (seq (length h0) (length rs)) (mkWorld e tbl (h0 ++ (persistent <$> rs)) false) =
  (Ok ((λ r, to_dict_of (load r)) <$> rs), mkWorld e tbl (h0 ++ (persistent <$> rs)) false).
Proof.
  induction rs as [|r rs IH]; intros h0; [done|].
  simpl. unfold mbind at 1, M_bind at 1. unfold to_dict at 1. simpl.
  rewrite lookup_app_r by lia. rewrite Nat.sub_diag. simpl.
  unfold mbind at 1, M_bind at 1.
  specialize (IH (h0 ++ [persistent r])).
  rewrite length_app, Nat.add_1_r, <- app_assoc in IH. simpl in IH.
  simpl in IH. unfold fmap in IH |- *. rewrite IH. done.
Qed.

Lemma query_all_run (P : row → Prop) `{∀ r, Decision (P r)} e tbl :
  query_all P (fresh e tbl) =
  match fault e with
  | Some msg => (Raise (mkExn SQLAlchemyError msg), fresh e tbl)
  | None => (Ok (seq 0 (length (filter P tbl))), mkWorld e tbl (persistent <$> filter P tbl) false)
  end.
Proof. run_view. by destruct (fault e). Qed.

Lemma listing_run (P : row → Prop) `{∀ r, Decision (P r)} e tbl :
  try_except
    (schedules ← query_all P; ds ← to_dict_all schedules; mret (jsonify (PList ds) 200))
    on_error (fresh e tbl) =
  match fault e with
  | Some msg => (Ok (jsonify (error_body msg) 500), fresh e tbl)
  | None => (Ok (jsonify (PList ((λ r, to_dict_of (load r)) <$> filter P tbl)) 200),
             mkWorld e tbl (persistent <$> filter P tbl) false)
  end.
Proof.
  unfold try_except. unfold mbind at 1, M_bind at 1. rewrite query_all_run.
  destruct (fault e); [done|].
  unfold mbind at 1, M_bind at 1.
  pose proof (to_dict_all_run e tbl (filter P tbl) []) as Hd. simpl in Hd.
  rewrite Hd. done.
Qed.

(** ** Binding attributes to columns *)

Lemma bind_text_typed v :
  is_text v = true → ∃ o, bind_text v = Ok o ∧ of_text o = v.
Proof. destruct v; try discriminate; intros _; eauto. Qed.

Lemma bind_boolean_typed v :
  is_boolean v = true → ∃ o, bind_boolean v = Ok o ∧ of_boolean o = v.
Proof. destruct v; try discriminate; intros _; eauto. Qed.

Lemma bind_columns_key k ins s r' :
  bind_columns k ins s = Ok r' →
  row_id r' = k ∧ (∀ d, date s = PStr d → row_date r' = d)
  ∧ (∀ u, user s = PStr u → row_user r' = u).
Proof.
  unfold bind_columns, mbind, result_bind, mret, result_ret. intros H.
  destruct (bind_text (date s)) as [d0|] eqn:Ed; [|discriminate].
  destruct (bind_text (user s)) as [u0|] eqn:Eu; [|discriminate].
  destruct (bind_text (checkInTime s)); [|discriminate].
  destruct (bind_boolean _); [|discriminate].
  destruct (bind_text (reflection s)); [|discriminate].
  destruct d0 as [d0|]; [|discriminate]. destruct u0 as [u0|]; [|discriminate].
  simpl in H. injection H as <-. simpl. split; [done|]. split.
  - intros d Hd. rewrite Hd in Ed. simpl in Ed. congruence.
  - intros u Hu. rewrite Hu in Eu. simpl in Eu. congruence.
Qed.

Lemma bind_columns_typed k ins s d u :
  date s = PStr d → user s = PStr u →
  is_text (checkInTime s) = true → is_boolean (exercised s) = true →
  is_text (reflection s) = true →
  ∃ r', bind_columns k ins s = Ok r'
        ∧ load r' = mkSchedule (PInt k) (date s) (user s) (checkInTime s)
                      (if ins then apply_default (PBool false) (exercised s)
                       else exercised s)
                      (reflection s).
Proof.
  intros Hd Hu Hc He Hr.
  destruct (bind_text_typed _ Hc) as (c & Ec & Hc').
  destruct (bind_text_typed _ Hr) as (rf & Er & Hr').
  assert (He' : is_boolean (if ins then apply_default (PBool false) (exercised s)
                            else exercised s) = true).
  { destruct ins; [|done]. by destruct (exercised s). }
  destruct (bind_boolean_typed _ He') as (x & Ex & Hx').
  exists (mkRow k d u c x rf). split.
  - unfold bind_columns, mbind, result_bind. rewrite Hd, Hu, Ec, Ex, Er. done.
  - unfold load. simpl. by rewrite Hd, Hu, Hc', Hx', Hr'.
Qed.

Lemma bind_text_of_text o : bind_text (of_text o) = Ok o.
Proof. by destruct o. Qed.

Lemma bind_boolean_of_boolean o : bind_boolean (of_boolean o) = Ok o.
Proof. by destruct o. Qed.

Lemma bind_columns_fields k s r' :
  bind_columns k false s = Ok r' →
  bind_text (checkInTime s) = Ok (row_checkInTime r')
  ∧ bind_boolean (exercised s) = Ok (row_exercised r')
  ∧ bind_text (reflection s) = Ok (row_reflection r').
Proof.
  unfold bind_columns, mbind, result_bind, mret, result_ret. intros H.
  destruct (bind_text (date s)) as [d0|]; [|discriminate].
  destruct (bind_text (user s)) as [u0|]; [|discriminate].
  destruct (bind_text (checkInTime s)); [|discriminate].
  destruct (bind_boolean (exercised s)); [|discriminate].
  destruct (bind_text (reflection s)); [|discriminate].
  destruct d0 as [d0|]; [|discriminate]. destruct u0 as [u0|]; [|discriminate].
  simpl in H. by injection H as <-.
Qed.

(** Written back unchanged, a loaded object gives its row again. *)
Lemma bind_columns_load r : bind_columns (row_id r) false (load r) = Ok r.
Proof.
  destruct r as [k d u c x f]. unfold bind_columns, load; simpl.
  by destruct c, x, f.
Qed.

(** ** The views on the world of a request *)

Lemma update_schedule_run k p e tbl :
  update_schedule k p (fresh e tbl) =
  match fault e with
  | Some msg => (Ok (jsonify (error_body msg) 500), fresh e tbl)
  | None =>
      match find_row k tbl with
      | None => (Ok (jsonify (error_body (str NotFound)) 500), fresh e tbl)
      | Some r =>
          match p with
          | NotJson x => (Ok (jsonify (error_body (str x)) 500), mkWorld e tbl [persistent r] false)
          | Json (PDict d) =>
              let ob := mkObject (Persistent (row_id r)) (updated d (load r)) in
              match bind_columns (row_id r) false (updated d (load r)) with
              | Ok r' =>
                  (Ok (jsonify (to_dict_of (attrs (refresh (store_row r' tbl) ob))) 200),
                   mkWorld e (store_row r' tbl) [refresh (store_row r' tbl) ob] false)
              | Raise x =>
                  (Ok (jsonify (error_body (str x)) 500), mkWorld e tbl [refresh tbl ob] true)
              end
          | Json v =>
              (Ok (jsonify (error_body (attribute_error v "get")) 500),
               mkWorld e tbl [persistent r] false)
          end
      end
  end.
Proof.
  unfold update_schedule, try_except. unfold mbind at 1, M_bind at 1.
  rewrite get_or_404_run. destruct (fault e) as [msg|] eqn:Hf; [done|].
  destruct (find_row k tbl) as [r|] eqn:Hr; [|done].
  destruct p as [v|x]; [|done].
  destruct v; try done.
  run_view. unfold session_commit. simpl. rewrite Hf.
  unfold mbind, result_bind.
  destruct (bind_columns (row_id r) false _) as [r'|x] eqn:Hb; simpl.
  - done.
  - done.
Qed.

Lemma find_row_app_new tbl r :
  row_id r = next_rowid tbl → find_row (row_id r) (tbl ++ [r]) = Some r.
Proof.
  intros Hk. unfold find_row. rewrite filter_app.
  replace (filter (λ x, row_id x = row_id r) tbl) with (@nil row).
  - simpl. rewrite filter_cons, decide_True by done. done.
  - symmetry. apply head_None. apply find_row_None. intros Hin.
    apply list_elem_of_fmap in Hin as (x & Hx & Hin).
    apply next_rowid_above in Hin. lia.
Qed.

Lemma add_schedule_run p e tbl :
  add_schedule p (fresh e tbl) =
  match p with
  | NotJson x => (Ok (jsonify (error_body (str x)) 500), fresh e tbl)
  | Json (PDict d) =>
      match d !! "date" with
      | None => (Ok (jsonify (error_body "'date'") 500), fresh e tbl)
      | Some dt =>
          match d !! "user" with
          | None => (Ok (jsonify (error_body "'user'") 500), fresh e tbl)
          | Some u =>
              let s := mkSchedule PNone dt u (default PNone (d !! "checkInTime"))
                         (default (PBool false) (d !! "exercised"))
                         (default PNone (d !! "reflection")) in
              match fault e with
              | Some msg =>
                  (Ok (jsonify (error_body msg) 500), mkWorld e tbl [mkObject Transient s] true)
              | None =>
                  match bind_columns (next_rowid tbl) true s with
                  | Ok r =>
                      let ob := refresh (tbl ++ [r]) (mkObject (Persistent (row_id r)) s) in
                      (Ok (jsonify (to_dict_of (attrs ob)) 201), mkWorld e (tbl ++ [r]) [ob] false)
                  | Raise x =>
                      (Ok (jsonify (error_body (str x)) 500),
                       mkWorld e tbl [mkObject Transient s] true)
                  end
              end
          end
      end
  | Json v => (Ok (jsonify (error_body (subscript_error v)) 500), fresh e tbl)
  end.
Proof.
  unfold add_schedule. destruct p as [v|x]; [|done].
  destruct v; try done.
  run_view. destruct (d !! "date") as [dt|]; [|done].
  simpl. destruct (d !! "user") as [u|]; [|done].
  simpl. unfold session_commit. simpl.
  destruct (fault e) as [msg|]; [done|].
  unfold mbind, result_bind.
  destruct (bind_columns (next_rowid tbl) true _) as [r|x]; done.
Qed.

Lemma get_schedule_run u d e tbl :
  get_schedule u d (fresh e tbl) =
  match fault e with
  | Some msg => (Ok (jsonify (error_body msg) 500), fresh e tbl)
  | None =>
      match filter (λ r, row_user r = u ∧ row_date r = d) tbl with
      | [] => (Ok (jsonify (PDict {["message" := PStr "Schedule not found"]}) 404),
               fresh e tbl)
      | r :: _ => (Ok (jsonify (to_dict_of (load r)) 200), mkWorld e tbl [persistent r] false)
      end
  end.
Proof.
  unfold get_schedule, try_except. unfold mbind at 1, M_bind at 1.
  rewrite query_first_run. destruct (fault e); [done|].
  by destruct (filter _ tbl).
Qed.

Lemma static_run filename e tbl :
  full_dispatch_request (GET_static filename) (fresh e tbl) =
  match static_file e filename with
  | Some data => (mkResponse 200 (FileBody data), fresh e tbl)
  | None =>
      match static_file e "index.html" with
      | Some data => (mkResponse 200 (FileBody data), fresh e tbl)
      | None => (jsonify (error_body "Internal server error") 500, fresh e tbl)
      end
  end.
Proof.
  unfold full_dispatch_request, dispatch_request, send_static_file, send_from_directory.
  run_view. destruct (static_file e filename); [done|].
  unfold handle_user_exception, not_found, send_static_file, send_from_directory.
  run_view. destruct (static_file e "index.html"); [done|].
  done.
Qed.

Lemma serve_run path e tbl :
  full_dispatch_request (GET_serve path) (fresh e tbl) =
  full_dispatch_request
    (GET_static (if negb (String.eqb path "") && static_exists e path
                 then path else "index.html")) (fresh e tbl).
Proof.
  unfold full_dispatch_request, dispatch_request, serve, send_static_file.
  unfold mbind at 1, M_bind at 1. unfold ask at 1. simpl.
  by destruct (negb (String.eqb path "") && static_exists e path).
Qed.

Lemma refresh_stored k s tbl r :
  find_row k tbl = Some r → refresh tbl (mkObject (Persistent k) s) = persistent r.
Proof.
  intros H. unfold refresh. simpl. rewrite H.
  apply find_row_Some in H as [_ <-]. done.
Qed.

(** A record found by its id and written back. *)
Lemma update_schedule_written k d e tbl r r' :
  fault e = None → find_row k tbl = Some r →
  bind_columns k false (updated d (load r)) = Ok r' →
  update_schedule k (Json (PDict d)) (fresh e tbl) =
  (Ok (jsonify (to_dict_of (load r')) 200), mkWorld e (store_row r' tbl) [persistent r'] false).
Proof.
  intros Hf Hr Hb. rewrite update_schedule_run, Hf, Hr.
  pose proof (find_row_Some _ _ _ Hr) as [_ Hk]. simpl. rewrite Hk, Hb.
  pose proof (bind_columns_key _ _ _ _ Hb) as (Hk' & _).
  rewrite (refresh_stored k _ _ r'); [done|].
  rewrite <- Hk'. eapply find_row_store_row. rewrite Hk'. exact Hr.
Qed.

Lemma add_schedule_written d dt u e tbl r :
  fault e = None → d !! "date" = Some dt → d !! "user" = Some u →
  bind_columns (next_rowid tbl) true
    (mkSchedule PNone dt u (default PNone (d !! "checkInTime"))
       (default (PBool false) (d !! "exercised")) (default PNone (d !! "reflection")))
  = Ok r →
  add_schedule (Json (PDict d)) (fresh e tbl) =
  (Ok (jsonify (to_dict_of (load r)) 201), mkWorld e (tbl ++ [r]) [persistent r] false).
Proof.
  intros Hf Hd Hu Hb. rewrite add_schedule_run, Hd, Hu, Hf. simpl. rewrite Hb.
  pose proof (bind_columns_key _ _ _ _ Hb) as (Hk & _).
  rewrite (refresh_stored _ _ _ r) by (by apply find_row_app_new).
  done.
Qed.

(** Every way [update_schedule] ends. *)
Lemma update_schedule_cases k p e tbl :
  (∃ msg w', update_schedule k p (fresh e tbl) = (Ok (jsonify (error_body msg) 500), w')
             ∧ table w' = tbl ∧ session_clean w' ∧ environment w' = e)
  ∨ (∃ d r r', p = Json (PDict d) ∧ fault e = None ∧ find_row k tbl = Some r
               ∧ bind_columns k false (updated d (load r)) = Ok r'
               ∧ update_schedule k p (fresh e tbl) =
                 (Ok (jsonify (to_dict_of (load r')) 200),
                  mkWorld e (store_row r' tbl) [persistent r'] false)).
Proof.
  assert (Hclean0 : session_clean (fresh e tbl)) by constructor.
  assert (Hclean1 : ∀ r b, find_row k tbl = Some r →
                           session_clean (mkWorld e tbl [persistent r] b)).
  { intros r b Hr. constructor; [|constructor]. exists r. split; [|done].
    simpl. by destruct (find_row_Some _ _ _ Hr) as [_ ->]. }
  destruct (fault e) as [msg|] eqn:Hf.
  { left. exists msg, (fresh e tbl). by rewrite update_schedule_run, Hf. }
  destruct (find_row k tbl) as [r|] eqn:Hr.
  2:{ left. exists (str NotFound), (fresh e tbl). by rewrite update_schedule_run, Hf, Hr. }
  pose proof (find_row_Some _ _ _ Hr) as [_ Hk].
  destruct p as [v|x].
  2:{ left. exists (str x), (mkWorld e tbl [persistent r] false).
      rewrite update_schedule_run, Hf, Hr. auto. }
  destruct v as [| | | | | |d];
    try (left; eexists _, (mkWorld e tbl [persistent r] false);
         rewrite update_schedule_run, Hf, Hr; split; [reflexivity|auto]).
  destruct (bind_columns k false (updated d (load r))) as [r'|x] eqn:Hb.
  - right. exists d, r, r'. repeat (split; [done|]).
    by apply (update_schedule_written _ _ _ _ r).
  - left. exists (str x), (mkWorld e tbl [persistent r] true).
    rewrite update_schedule_run, Hf, Hr. simpl. rewrite Hk, Hb.
    rewrite (refresh_stored _ _ _ r) by done. auto.
Qed.

(** Every way [add_schedule] ends. *)
Lemma add_schedule_cases p e tbl :
  (∃ msg w', add_schedule p (fresh e tbl) = (Ok (jsonify (error_body msg) 500), w')
             ∧ table w' = tbl ∧ session_clean w' ∧ environment w' = e)
  ∨ (∃ d dt u r, p = Json (PDict d) ∧ fault e = None
                 ∧ d !! "date" = Some dt ∧ d !! "user" = Some u
                 ∧ bind_columns (next_rowid tbl) true
                     (mkSchedule PNone dt u (default PNone (d !! "checkInTime"))
                        (default (PBool false) (d !! "exercised"))
                        (default PNone (d !! "reflection"))) = Ok r
                 ∧ add_schedule p (fresh e tbl) =
                   (Ok (jsonify (to_dict_of (load r)) 201),
                    mkWorld e (tbl ++ [r]) [persistent r] false)).
Proof.
  assert (Hclean0 : session_clean (fresh e tbl)) by constructor.
  assert (Hclean1 : ∀ s, session_clean (mkWorld e tbl [mkObject Transient s] true)).
  { intros s. by repeat constructor. }
  destruct p as [v|x].
  2:{ left. exists (str x), (fresh e tbl). by rewrite add_schedule_run. }
  destruct v as [| | | | | |d];
    try (left; eexists _, (fresh e tbl); rewrite add_schedule_run;
         split; [reflexivity|auto]).
  destruct (d !! "date") as [dt|] eqn:Hd.
  2:{ left. eexists _, (fresh e tbl). rewrite add_schedule_run, Hd.
      split; [reflexivity|auto]. }
  destruct (d !! "user") as [u|] eqn:Hu.
  2:{ left. eexists _, (fresh e tbl). rewrite add_schedule_run, Hd, Hu.
      split; [reflexivity|auto]. }
  destruct (fault e) as [msg|] eqn:Hf.
  { left. eexists _, _. rewrite add_schedule_run, Hd, Hu, Hf.
    split; [reflexivity|]. simpl. auto. }
  destruct (bind_columns (next_rowid tbl) true
              (mkSchedule PNone dt u (default PNone (d !! "checkInTime"))
                 (default (PBool false) (d !! "exercised"))
                 (default PNone (d !! "reflection")))) as [r|x] eqn:Hb.
  - right. exists d, dt, u, r. repeat (split; [done|]).
    by apply (add_schedule_written _ dt u).
  - left. eexists _, _. rewrite add_schedule_run, Hd, Hu, Hf. simpl. rewrite Hb.
    split; [reflexivity|]. simpl. auto.
Qed.

Lemma wsgi_app_view req e tbl r w :
  dispatch_request req (fresh e tbl) = (Ok r, w) → wsgi_app req e tbl = (r, table w).
Proof. intros H. unfold wsgi_app, full_dispatch_request. by rewrite H. Qed.


Lemma store_row_column {A} (f : row → A) r r' tbl :
  NoDup (row_id <$> tbl) → find_row (row_id r') tbl = Some r → f r' = f r →
  f <$> store_row r' tbl = f <$> tbl.
Proof.
  intros Hnd Hr Hf. apply find_row_Some in Hr as [Hin Hk].
  apply list_elem_of_lookup in Hin as [i Hi].
  rewrite (store_row_insert r' tbl i r) by done.
  rewrite list_fmap_insert, Hf. apply list_insert_id.
  by rewrite list_lookup_fmap, Hi.
Qed.

(** ** The properties the specification states *)

(** C1. A PUT on a stored record overwrites exactly the fields its body
    supplies and keeps the others, and never touches id, date or user.  On a
    table with distinct primary keys: whatever the body, no row changes its
    id, date or user; whenever the answer is 200, every field the body omits
    keeps its value and every other row is as it was; and with the database
    reachable and the supplied values of the column types (a string or null
    for [checkInTime] and [reflection], a boolean or null for [exercised])
    the answer is 200 and every supplied field holds the supplied value. *)
Theorem update_schedule_frame e tbl k p :
  NoDup (row_id <$> tbl) →
  (row_id <$> (wsgi_app (PUT_schedule k p) e tbl).2 = row_id <$> tbl
   ∧ row_date <$> (wsgi_app (PUT_schedule k p) e tbl).2 = row_date <$> tbl
   ∧ row_user <$> (wsgi_app (PUT_schedule k p) e tbl).2 = row_user <$> tbl)
  ∧ (∀ (i : nat) r d,
      p = Json (PDict d) → tbl !! i = Some r → row_id r = k →
      status (wsgi_app (PUT_schedule k p) e tbl).1 = 200 →
      ∃ r', wsgi_app (PUT_schedule k p) e tbl
            = (jsonify (to_dict_of (load r')) 200, <[i:=r']> tbl)
            ∧ (d !! "checkInTime" = None → row_checkInTime r' = row_checkInTime r)
            ∧ (d !! "exercised" = None → row_exercised r' = row_exercised r)
            ∧ (d !! "reflection" = None → row_reflection r' = row_reflection r)
            ∧ row_id r' = row_id r ∧ row_date r' = row_date r ∧ row_user r' = row_user r)
  ∧ (∀ (i : nat) r d,
      p = Json (PDict d) → fault e = None →
      tbl !! i = Some r → row_id r = k →
      supplies is_text d "checkInTime" = true →
      supplies is_boolean d "exercised" = true →
      supplies is_text d "reflection" = true →
      ∃ r', wsgi_app (PUT_schedule k p) e tbl
            = (jsonify (to_dict_of (load r')) 200, <[i:=r']> tbl)
            ∧ checkInTime (load r') = default (checkInTime (load r)) (d !! "checkInTime")
            ∧ exercised (load r') = default (exercised (load r)) (d !! "exercised")
            ∧ reflection (load r') = default (reflection (load r)) (d !! "reflection")
            ∧ row_id r' = row_id r ∧ row_date r' = row_date r ∧ row_user r' = row_user r).
Proof.
  intros Hnd. split; [|split].
  - destruct (update_schedule_cases k p e tbl)
      as [(msg & w' & Hrun & Ht & _)|(d & r & r' & -> & Hf & Hr & Hb & Hrun)];
      rewrite (wsgi_app_view (PUT_schedule k _) _ _ _ _ Hrun); simpl.
    + by rewrite Ht.
    + destruct (bind_columns_key _ _ _ _ Hb) as (Hk & Hd & Hu).
      rewrite <- Hk in Hr.
      split; [apply store_row_ids|].
      split; eapply store_row_column; eauto.
  - intros i r d -> Hi Hk Hs.
    assert (Hr : find_row k tbl = Some r).
    { apply find_row_unique; [done| |done]. by eapply list_elem_of_lookup_2. }
    destruct (update_schedule_cases k (Json (PDict d)) e tbl)
      as [(msg & w' & Hrun & _)|(d' & r0 & r' & Hp & Hf & Hr0 & Hb & Hrun)];
      rewrite (wsgi_app_view (PUT_schedule k _) _ _ _ _ Hrun) in *; [discriminate|].
    injection Hp as <-. rewrite Hr in Hr0. injection Hr0 as <-.
    destruct (bind_columns_key _ _ _ _ Hb) as (Hk' & Hd' & Hu').
    destruct (bind_columns_fields _ _ _ Hb) as (Hc & Hx & Hf').
    exists r'. split; [simpl; by rewrite (store_row_insert r' tbl i r) by (done || congruence)|].
    simpl in Hc, Hx, Hf'.
    split; [|split; [|split]].
    + intros Hn. rewrite Hn in Hc. simpl in Hc.
      rewrite bind_text_of_text in Hc. congruence.
    + intros Hn. rewrite Hn in Hx. simpl in Hx.
      rewrite bind_boolean_of_boolean in Hx. congruence.
    + intros Hn. rewrite Hn in Hf'. simpl in Hf'.
      rewrite bind_text_of_text in Hf'. congruence.
    + split; [congruence|]. split; [by apply Hd'|by apply Hu'].
  - intros i r d -> Hf Hi Hk Hc He Hx.
    assert (Hr : find_row k tbl = Some r).
    { apply find_row_unique; [done| |done]. by eapply list_elem_of_lookup_2. }
    destruct (bind_columns_typed k false (updated d (load r)) (row_date r) (row_user r))
      as (r' & Hb & Hl); try done.
    { unfold supplies in Hc. simpl. destruct (d !! "checkInTime"); [done|].
      simpl. by destruct (row_checkInTime r). }
    { unfold supplies in He. simpl. destruct (d !! "exercised"); [done|].
      simpl. by destruct (row_exercised r). }
    { unfold supplies in Hx. simpl. destruct (d !! "reflection"); [done|].
      simpl. by destruct (row_reflection r). }
    exists r'. simpl in Hl.
    destruct (bind_columns_key _ _ _ _ Hb) as (Hk' & Hd' & Hu').
    rewrite (wsgi_app_view (PUT_schedule k _) _ _ _ _
               (update_schedule_written _ _ _ _ _ _ Hf Hr Hb)).
    split; [simpl; by rewrite (store_row_insert r' tbl i r) by (done || congruence)|].
    rewrite Hl. simpl.
    repeat (split; [done|]).
    split; [congruence|]. split; [by apply Hd'|by apply Hu'].
Qed.


(** The handler registered for 500 rolls the session back before it
    answers; the table is not touched.  No view of the API reaches it: each
    catches every exception itself. *)
Lemma internal_error_rolls_back x w :
  handle_exception x w
  = (jsonify (error_body "Internal server error") 500,
     mkWorld (environment w) (table w) (restored w) false).
Proof. reflexivity. Qed.

(** C3. A PUT whose id matches no row answers 500 with an error body, the
    same answer the view gives to any other failure and not a 404, whatever
    the body; the table is left as it was, so no record is created. *)
Theorem update_unknown_id k p e tbl :
  k ∉ (row_id <$> tbl) →
  ∃ msg, wsgi_app (PUT_schedule k p) e tbl
         = (jsonify (PDict {["error" := PStr msg]}) 500, tbl)
         ∧ update_schedule k p (fresh e tbl) = on_error (mkExn SQLAlchemyError msg) (fresh e tbl).
Proof.
  intros Hk. apply find_row_None in Hk.
  pose proof (update_schedule_run k p e tbl) as Hrun. rewrite Hk in Hrun.
  destruct (fault e) as [m|]; eexists;
    rewrite (wsgi_app_view (PUT_schedule k p) _ _ _ _ Hrun); split; done.
Qed.

(** C4. A POST whose JSON body lacks the [date] key or the [user] key
    answers 500 with an error body and leaves the table as it was. *)
Theorem add_schedule_missing_key v e tbl :
  has_key v "date" && has_key v "user" = false →
  ∃ msg, wsgi_app (POST_schedules (Json v)) e tbl
         = (jsonify (PDict {["error" := PStr msg]}) 500, tbl).
Proof.
  intros Hk. pose proof (add_schedule_run (Json v) e tbl) as Hrun.
  destruct v as [| | | | | |d];
    try (eexists; by rewrite (wsgi_app_view (POST_schedules _) _ _ _ _ Hrun)).
  simpl in Hk. destruct (d !! "date") as [dt|].
  - destruct (d !! "user") as [u|]; [discriminate|].
    eexists. by rewrite (wsgi_app_view (POST_schedules _) _ _ _ _ Hrun).
  - eexists. by rewrite (wsgi_app_view (POST_schedules _) _ _ _ _ Hrun).
Qed.

(** C5. With the database reachable, GET /api/schedules/{user}/{date}
    answers 404 with exactly [{"message": "Schedule not found"}] when no row
    has both that user and that date, and 200 with a row that has both when
    there is one. *)
Theorem get_schedule_found_or_404 u d e tbl :
  fault e = None →
  ((∀ r, r ∈ tbl → ¬ (row_user r = u ∧ row_date r = d)) →
   wsgi_app (GET_schedule u d) e tbl
   = (jsonify (PDict {["message" := PStr "Schedule not found"]}) 404, tbl))
  ∧ (∀ r, r ∈ tbl → row_user r = u → row_date r = d →
     ∃ r', r' ∈ tbl ∧ row_user r' = u ∧ row_date r' = d
           ∧ wsgi_app (GET_schedule u d) e tbl = (jsonify (to_dict_of (load r')) 200, tbl)).
Proof.
  intros Hf. pose proof (get_schedule_run u d e tbl) as Hrun. rewrite Hf in Hrun.
  destruct (filter (λ r, row_user r = u ∧ row_date r = d) tbl) as [|r0 l] eqn:E; split.
  - intros _. by rewrite (wsgi_app_view (GET_schedule u d) _ _ _ _ Hrun).
  - intros r Hin Hu Hd.
    assert (Hr : r ∈ filter (λ r, row_user r = u ∧ row_date r = d) tbl)
      by (apply list_elem_of_filter; auto).
    rewrite E in Hr. inversion Hr.
  - intros Hno. exfalso.
    assert (Hr : r0 ∈ filter (λ r, row_user r = u ∧ row_date r = d) tbl)
      by (rewrite E; left).
    apply list_elem_of_filter in Hr as [Hr Hin]. by apply (Hno r0).
  - intros _ _ _ _.
    assert (Hr : r0 ∈ filter (λ r, row_user r = u ∧ row_date r = d) tbl)
      by (rewrite E; left).
    apply list_elem_of_filter in Hr as [[Hu Hd] Hin].
    exists r0. by rewrite (wsgi_app_view (GET_schedule u d) _ _ _ _ Hrun).
Qed.

(** C6. With the database reachable, GET /api/schedules/{user} answers a
    JSON array of the rows whose user is that string, all of them and no
    other, whatever their date. *)
Theorem get_user_schedules_all_and_only u e tbl :
  fault e = None →
  wsgi_app (GET_user_schedules u) e tbl
  = (jsonify (PList ((λ r, to_dict_of (load r)) <$> filter (λ r, row_user r = u) tbl)) 200,
     tbl)
  ∧ ∀ r, r ∈ filter (λ r, row_user r = u) tbl ↔ r ∈ tbl ∧ row_user r = u.
Proof.
  intros Hf. split.
  - pose proof (listing_run (λ r, row_user r = u) e tbl) as Hrun. rewrite Hf in Hrun.
    by rewrite (wsgi_app_view (GET_user_schedules u) _ _ _ _ Hrun).
  - intros r. rewrite list_elem_of_filter. tauto.
Qed.

(** Listing: with the database reachable, GET /api/schedules answers every
    row of the table, in table order. *)
Lemma get_schedules_all e tbl :
  fault e = None →
  wsgi_app GET_schedules e tbl
  = (jsonify (PList ((λ r, to_dict_of (load r)) <$> tbl)) 200, tbl).
Proof.
  intros Hf. pose proof (listing_run (λ _, True) e tbl) as Hrun. rewrite Hf in Hrun.
  rewrite (wsgi_app_view GET_schedules _ _ _ _ Hrun). simpl.
  replace (filter (λ _ : row, True) tbl) with tbl; [done|].
  clear. induction tbl as [|r tbl IH]; [done|].
  rewrite filter_cons_True by done. by rewrite <- IH.
Qed.

(** What one request does to the table: nothing, or an UPDATE of one key, or
    the INSERT of a successful POST. *)
Lemma wsgi_app_table req e tbl :
  row_id <$> (wsgi_app req e tbl).2 = row_id <$> tbl
  ∨ ∃ p r, req = POST_schedules p
           ∧ wsgi_app req e tbl = (jsonify (to_dict_of (load r)) 201, tbl ++ [r])
           ∧ row_id r = next_rowid tbl.
Proof.
  destruct req as [|p|k p|u d|u|path|filename| | | |].
  - left. pose proof (listing_run (λ _, True) e tbl) as Hrun.
    destruct (fault e); by rewrite (wsgi_app_view GET_schedules _ _ _ _ Hrun).
  - destruct (add_schedule_cases p e tbl)
      as [(msg & w' & Hrun & Ht & _)|(d & dt & u & r & -> & _ & _ & _ & Hb & Hrun)];
      rewrite (wsgi_app_view (POST_schedules _) _ _ _ _ Hrun); simpl.
    + left. by rewrite Ht.
    + right. exists (Json (PDict d)), r. repeat split.
      by destruct (bind_columns_key _ _ _ _ Hb).
  - left. destruct (update_schedule_cases k p e tbl)
      as [(msg & w' & Hrun & Ht & _)|(d & r & r' & _ & _ & _ & _ & Hrun)];
      rewrite (wsgi_app_view (PUT_schedule k p) _ _ _ _ Hrun); simpl.
    + by rewrite Ht.
    + apply store_row_ids.
  - left. pose proof (get_schedule_run u d e tbl) as Hrun.
    destruct (fault e); [|destruct (filter _ tbl)];
      by rewrite (wsgi_app_view (GET_schedule u d) _ _ _ _ Hrun).
  - left. pose proof (listing_run (λ r, row_user r = u) e tbl) as Hrun.
    destruct (fault e); by rewrite (wsgi_app_view (GET_user_schedules u) _ _ _ _ Hrun).
  - left. unfold wsgi_app. rewrite serve_run, static_run.
    destruct (static_file e (if negb (String.eqb path "") && static_exists e path
                             then path else "index.html")); [done|].
    by destruct (static_file e "index.html").
  - left. unfold wsgi_app. rewrite static_run.
    destruct (static_file e filename); [done|].
    by destruct (static_file e "index.html").
  - left. unfold wsgi_app, full_dispatch_request, dispatch_request, test_db.
    run_view. by destruct (fault e).
  - left. unfold wsgi_app, full_dispatch_request, dispatch_request, download_db, send_file.
    run_view. by destruct (db_on_disk e).
  - by left.
  - left. unfold wsgi_app, full_dispatch_request, dispatch_request, handle_user_exception,
      not_found, send_static_file, send_from_directory.
    run_view. by destruct (static_file e "index.html").
Qed.

Lemma next_rowid_fresh tbl : next_rowid tbl ∉ (row_id <$> tbl).
Proof.
  intros Hin. apply list_elem_of_fmap in Hin as (r & Hk & Hin).
  apply next_rowid_above in Hin. lia.
Qed.

Lemma serve_all_ids reqs : ∀ tbl,
  (row_id <$> tbl) `prefix_of` (row_id <$> (serve_all reqs tbl).2)
  ∧ (NoDup (row_id <$> tbl) → NoDup (row_id <$> (serve_all reqs tbl).2)).
Proof.
  induction reqs as [|[e req] reqs IH]; intros tbl; simpl; [done|].
  destruct (wsgi_app req e tbl) as [resp tbl'] eqn:Hstep.
  specialize (IH tbl'). destruct (serve_all reqs tbl') as [rs tbl''].
  simpl in *. destruct IH as [Hpre Hnd].
  pose proof (wsgi_app_table req e tbl) as Ht. rewrite Hstep in Ht. simpl in Ht.
  destruct Ht as [Hids|(p & r & _ & Heq & Hk)].
  - rewrite Hids in *. done.
  - injection Heq as _ ->. rewrite fmap_app in *. simpl in *. split.
    + etrans; [|exact Hpre]. by apply prefix_app_r.
    + intros Hn. apply Hnd. apply NoDup_app. split; [done|]. split.
      * intros x Hx Hx'. apply list_elem_of_singleton in Hx' as ->.
        rewrite Hk in Hx. by apply next_rowid_fresh in Hx.
      * apply NoDup_singleton.
Qed.

(** C7. A successful insert appends one row whose id no row of the table
    has, and that is the id its response shows; over any run of requests
    the ids already in the table stay where they are, none is dropped or
    changed, and distinct primary keys stay distinct; so two creates in a
    row answer different ids. *)
Theorem ids_assigned_once :
  (∀ e tbl p,
     status (wsgi_app (POST_schedules p) e tbl).1 = 201 →
     ∃ r, wsgi_app (POST_schedules p) e tbl = (jsonify (to_dict_of (load r)) 201, tbl ++ [r])
          ∧ row_id r ∉ (row_id <$> tbl))
  ∧ (∀ reqs tbl,
       (row_id <$> tbl) `prefix_of` (row_id <$> (serve_all reqs tbl).2)
       ∧ (NoDup (row_id <$> tbl) → NoDup (row_id <$> (serve_all reqs tbl).2)))
  ∧ (∀ e1 e2 p1 p2 tbl,
       status (wsgi_app (POST_schedules p1) e1 tbl).1 = 201 →
       status (wsgi_app (POST_schedules p2) e2 (wsgi_app (POST_schedules p1) e1 tbl).2).1 = 201 →
       ∃ r1 r2,
         (wsgi_app (POST_schedules p1) e1 tbl).1 = jsonify (to_dict_of (load r1)) 201
         ∧ (wsgi_app (POST_schedules p2) e2 (wsgi_app (POST_schedules p1) e1 tbl).2).1
           = jsonify (to_dict_of (load r2)) 201
         ∧ row_id r1 ≠ row_id r2).
Proof.
  assert (Hone : ∀ e tbl p,
     status (wsgi_app (POST_schedules p) e tbl).1 = 201 →
     ∃ r, wsgi_app (POST_schedules p) e tbl = (jsonify (to_dict_of (load r)) 201, tbl ++ [r])
          ∧ row_id r = next_rowid tbl).
  { intros e tbl p Hs.
    destruct (add_schedule_cases p e tbl)
      as [(msg & w' & Hrun & _)|(d & dt & u & r & -> & _ & _ & _ & Hb & Hrun)];
      rewrite (wsgi_app_view (POST_schedules _) _ _ _ _ Hrun) in *; [discriminate|].
    exists r. split; [done|]. by destruct (bind_columns_key _ _ _ _ Hb). }
  split; [|split].
  - intros e tbl p Hs. destruct (Hone e tbl p Hs) as (r & Heq & Hk).
    exists r. split; [done|]. rewrite Hk. apply next_rowid_fresh.
  - intros reqs tbl. apply serve_all_ids.
  - intros e1 e2 p1 p2 tbl H1 H2.
    destruct (Hone e1 tbl p1 H1) as (r1 & Heq1 & Hk1). rewrite Heq1 in *. simpl in H2.
    destruct (Hone e2 (tbl ++ [r1]) p2 H2) as (r2 & Heq2 & Hk2).
    exists r1, r2. simpl. rewrite Heq2. simpl. split; [done|]. split; [done|].
    assert (row_id r1 < next_rowid (tbl ++ [r1])).
    { apply next_rowid_above. apply elem_of_app. right. left. }
    lia.
Qed.

(** [to_dict] shows each of the six attributes under its own key and has
    no other key. *)
Lemma to_dict_of_keys s :
  ∃ m : gmap string pyval,
    to_dict_of s = PDict m
    ∧ m !! "id" = Some (id s) ∧ m !! "date" = Some (date s)
    ∧ m !! "user" = Some (user s) ∧ m !! "checkInTime" = Some (checkInTime s)
    ∧ m !! "exercised" = Some (exercised s) ∧ m !! "reflection" = Some (reflection s)
    ∧ ∀ k, is_Some (m !! k) →
           k ∈ ["id"; "date"; "user"; "checkInTime"; "exercised"; "reflection"].
Proof.
  unfold to_dict_of. eexists. split; [reflexivity|].
  repeat (split; [by repeat (rewrite lookup_insert_eq || rewrite lookup_insert_ne by done)|]).
  intros k [v Hv]. rewrite !lookup_insert in Hv.
  repeat case_decide; subst; try set_solver.
Qed.

(** C8 (as amended). With the database reachable, a POST whose body gives
    [date] and [user] as strings (and the optional fields, where supplied,
    as a string or null, resp. a boolean) answers 201, appends one row, and
    its body is the dictionary of that row: under [id] an id no stored row
    has, under [date] and [user] the strings supplied, under [checkInTime]
    and [reflection] the value supplied or null, under [exercised] the
    value supplied or false, and no other key. *)
Theorem add_schedule_created d dt u e tbl :
  fault e = None →
  d !! "date" = Some (PStr dt) → d !! "user" = Some (PStr u) →
  supplies is_text d "checkInTime" = true →
  supplies is_bool d "exercised" = true →
  supplies is_text d "reflection" = true →
  ∃ r (m : gmap string pyval),
    wsgi_app (POST_schedules (Json (PDict d))) e tbl = (jsonify (PDict m) 201, tbl ++ [r])
    ∧ (row_id r ∉ (row_id <$> tbl))
    ∧ m !! "id" = Some (PInt (row_id r))
    ∧ m !! "date" = Some (PStr dt)
    ∧ m !! "user" = Some (PStr u)
    ∧ m !! "checkInTime" = Some (default PNone (d !! "checkInTime"))
    ∧ m !! "exercised" = Some (default (PBool false) (d !! "exercised"))
    ∧ m !! "reflection" = Some (default PNone (d !! "reflection"))
    ∧ (∀ k, is_Some (m !! k) →
            k ∈ ["id"; "date"; "user"; "checkInTime"; "exercised"; "reflection"])
    ∧ PDict m = to_dict_of (load r)
    ∧ load r = mkSchedule (PInt (row_id r)) (PStr dt) (PStr u)
                 (default PNone (d !! "checkInTime"))
                 (default (PBool false) (d !! "exercised"))
                 (default PNone (d !! "reflection")).
Proof.
  intros Hf Hd Hu Hc He Hx.
  pose (s := mkSchedule PNone (PStr dt) (PStr u) (default PNone (d !! "checkInTime"))
               (default (PBool false) (d !! "exercised"))
               (default PNone (d !! "reflection"))).
  assert (Heb : is_bool (exercised s) = true).
  { unfold supplies in He. simpl. by destruct (d !! "exercised"). }
  destruct (bind_columns_typed (next_rowid tbl) true s dt u) as (r & Hb & Hl); try done.
  { unfold supplies in Hc. simpl. by destruct (d !! "checkInTime"). }
  { by destruct (exercised s). }
  { unfold supplies in Hx. simpl. by destruct (d !! "reflection"). }
  destruct (bind_columns_key _ _ _ _ Hb) as (Hk & _).
  assert (Hload : load r = mkSchedule (PInt (row_id r)) (PStr dt) (PStr u)
                    (default PNone (d !! "checkInTime"))
                    (default (PBool false) (d !! "exercised"))
                    (default PNone (d !! "reflection"))).
  { rewrite Hl, Hk. subst s. simpl. f_equal.
    simpl in Heb. by destruct (default (PBool false) (d !! "exercised")). }
  destruct (to_dict_of_keys (load r)) as (m & Hm & H1 & H2 & H3 & H4 & H5 & H6 & Hdom).
  exists r, m.
  rewrite (wsgi_app_view (POST_schedules _) _ _ _ _
             (add_schedule_written _ _ _ _ _ _ Hf Hd Hu Hb)).
  rewrite Hm. split; [done|]. split; [rewrite Hk; apply next_rowid_fresh|].
  rewrite Hload in H1, H2, H3, H4, H5, H6. simpl in H1, H2, H3, H4, H5, H6.
  by repeat (split; [done|]).
Qed.

(** C9. A GET the catch-all or the static rule serves, for a path under
    which the static folder has no file, is answered exactly as GET / is,
    and so is a request no rule matches; where [index.html] exists that
    answer is the file itself with status 200. *)
Theorem spa_fallback path e tbl :
  static_file e path = None →
  wsgi_app (GET_serve path) e tbl = wsgi_app (GET_serve "") e tbl
  ∧ wsgi_app (GET_static path) e tbl = wsgi_app (GET_serve "") e tbl
  ∧ wsgi_app Unmatched e tbl = wsgi_app (GET_serve "") e tbl
  ∧ (∀ data, static_file e "index.html" = Some data →
             wsgi_app (GET_serve "") e tbl = (mkResponse 200 (FileBody data), tbl)).
Proof.
  intros Hp.
  assert (Hroot : wsgi_app (GET_serve "") e tbl =
                  match static_file e "index.html" with
                  | Some data => (mkResponse 200 (FileBody data), tbl)
                  | None => (jsonify (error_body "Internal server error") 500, tbl)
                  end).
  { unfold wsgi_app. rewrite serve_run, static_run. simpl.
    by destruct (static_file e "index.html"). }
  rewrite Hroot. repeat split.
  - unfold wsgi_app. rewrite serve_run, static_run.
    destruct (negb (String.eqb path "") && static_exists e path).
    + rewrite Hp. by destruct (static_file e "index.html").
    + by destruct (static_file e "index.html").
  - unfold wsgi_app. rewrite static_run, Hp. by destruct (static_file e "index.html").
  - unfold wsgi_app, full_dispatch_request, dispatch_request, handle_user_exception,
      not_found, send_static_file, send_from_directory.
    run_view. by destruct (static_file e "index.html").
  - intros data Hi. by rewrite Hi.
Qed.

(** C10. GET /test_db always answers 200 with a plain text: the success
    text when the probe query runs, the failure text followed by the error
    when it raises. *)
Theorem test_db_always_200 e tbl :
  wsgi_app GET_test_db e tbl
  = (mkResponse 200
       (TextBody (match fault e with
                  | None => "Database connection successful"
                  | Some msg => "Database connection failed: " +:+ msg
                  end)), tbl).
Proof.
  unfold wsgi_app, full_dispatch_request, dispatch_request, test_db.
  run_view. by destruct (fault e).
Qed.


(** * Further properties of the views *)

(** What one request does to the rows: nothing (and then it did not answer
    201), the INSERT of a POST that answers 201, or the UPDATE of a PUT that
    answers 200. *)
Lemma wsgi_app_effect req e tbl :
  ((wsgi_app req e tbl).2 = tbl ∧ status (wsgi_app req e tbl).1 ≠ 201)
  ∨ (∃ p r, req = POST_schedules p
            ∧ wsgi_app req e tbl = (jsonify (to_dict_of (load r)) 201, tbl ++ [r])
            ∧ row_id r = next_rowid tbl)
  ∨ (∃ k p r r', req = PUT_schedule k p ∧ find_row k tbl = Some r ∧ row_id r' = k
                 ∧ wsgi_app req e tbl
                   = (jsonify (to_dict_of (load r')) 200, store_row r' tbl)).
Proof.
  destruct req as [|p|k p|u d|u|path|filename| | | |].
  - left. pose proof (listing_run (λ _, True) e tbl) as Hrun.
    destruct (fault e); by rewrite (wsgi_app_view GET_schedules _ _ _ _ Hrun).
  - destruct (add_schedule_cases p e tbl)
      as [(msg & w' & Hrun & Ht & _)|(d & dt & u & r & -> & _ & _ & _ & Hb & Hrun)];
      rewrite (wsgi_app_view (POST_schedules _) _ _ _ _ Hrun); simpl.
    + left. by rewrite Ht.
    + right. left. exists (Json (PDict d)), r. repeat split.
      by destruct (bind_columns_key _ _ _ _ Hb).
  - destruct (update_schedule_cases k p e tbl)
      as [(msg & w' & Hrun & Ht & _)|(d & r & r' & _ & _ & Hr & Hb & Hrun)];
      rewrite (wsgi_app_view (PUT_schedule k p) _ _ _ _ Hrun); simpl.
    + left. by rewrite Ht.
    + right. right. exists k, p, r, r'. repeat split; [done|].
      by destruct (bind_columns_key _ _ _ _ Hb).
  - left. pose proof (get_schedule_run u d e tbl) as Hrun.
    destruct (fault e); [|destruct (filter _ tbl)];
      by rewrite (wsgi_app_view (GET_schedule u d) _ _ _ _ Hrun).
  - left. pose proof (listing_run (λ r, row_user r = u) e tbl) as Hrun.
    destruct (fault e); by rewrite (wsgi_app_view (GET_user_schedules u) _ _ _ _ Hrun).
  - left. unfold wsgi_app. rewrite serve_run, static_run.
    destruct (static_file e (if negb (String.eqb path "") && static_exists e path
                             then path else "index.html")); [done|].
    by destruct (static_file e "index.html").
  - left. unfold wsgi_app. rewrite static_run.
    destruct (static_file e filename); [done|].
    by destruct (static_file e "index.html").
  - left. unfold wsgi_app, full_dispatch_request, dispatch_request, test_db.
    run_view. by destruct (fault e).
  - left. unfold wsgi_app, full_dispatch_request, dispatch_request, download_db, send_file.
    run_view. by destruct (db_on_disk e).
  - by left.
  - left. unfold wsgi_app, full_dispatch_request, dispatch_request, handle_user_exception,
      not_found, send_static_file, send_from_directory.
    run_view. by destruct (static_file e "index.html").
Qed.

(** X1. GET /api/schedules answers every row of the table, in table order
    (the empty array on an empty table), or 500 with the error of the
    database while it is unreachable; it never changes the table. *)
Theorem get_schedules_lists_table e tbl :
  wsgi_app GET_schedules e tbl
  = (match fault e with
     | None => jsonify (PList ((λ r, to_dict_of (load r)) <$> tbl)) 200
     | Some msg => jsonify (PDict {["error" := PStr msg]}) 500
     end, tbl).
Proof.
  pose proof (listing_run (λ _, True) e tbl) as Hrun.
  destruct (fault e); rewrite (wsgi_app_view GET_schedules _ _ _ _ Hrun); [done|].
  simpl. replace (filter (λ _ : row, True) tbl) with tbl; [done|].
  clear. induction tbl as [|r tbl IH]; [done|].
  rewrite filter_cons_True by done. by rewrite <- IH.
Qed.

(** X2. A request that is neither a POST nor a PUT leaves the table exactly
    as it was, whatever it answers and whatever the state of the database
    and of the static folder. *)
Theorem reads_never_write req e tbl :
  mutating req = false → (wsgi_app req e tbl).2 = tbl.
Proof.
  intros Hm.
  destruct (wsgi_app_effect req e tbl)
    as [[H _]|[(p & r & -> & _)|(k & p & r & r' & -> & _)]]; done.
Qed.


(** X4. A create that answers 201 for a body whose [user] and [date] are
    strings can be looked up at once under that user and date; when no
    earlier record had both, the lookup answers the very record the create
    answered. *)
Theorem insert_then_lookup d u dt e e' tbl :
  d !! "user" = Some (PStr u) → d !! "date" = Some (PStr dt) →
  status (wsgi_app (POST_schedules (Json (PDict d))) e tbl).1 = 201 →
  fault e' = None →
  status (wsgi_app (GET_schedule u dt) e'
            (wsgi_app (POST_schedules (Json (PDict d))) e tbl).2).1 = 200
  ∧ ((∀ r, r ∈ tbl → ¬ (row_user r = u ∧ row_date r = dt)) →
     (wsgi_app (GET_schedule u dt) e'
        (wsgi_app (POST_schedules (Json (PDict d))) e tbl).2).1
     = mkResponse 200 (body (wsgi_app (POST_schedules (Json (PDict d))) e tbl).1)).
Proof.
  intros Hu Hd Hs Hf.
  destruct (add_schedule_cases (Json (PDict d)) e tbl)
    as [(msg & w' & Hrun & _)|(d' & dt' & u' & r & Hp & _ & Hd' & Hu' & Hb & Hrun)];
    rewrite (wsgi_app_view (POST_schedules _) _ _ _ _ Hrun) in *; [discriminate|].
  injection Hp as <-. rewrite Hd in Hd'. rewrite Hu in Hu'.
  injection Hd' as <-. injection Hu' as <-.
  destruct (bind_columns_key _ _ _ _ Hb) as (_ & Hrd & Hru).
  specialize (Hrd dt eq_refl). specialize (Hru u eq_refl). simpl.
  pose proof (get_schedule_run u dt e' (tbl ++ [r])) as Hget. rewrite Hf in Hget.
  rewrite filter_app in Hget.
  rewrite (filter_cons_True _ r []) in Hget by done. rewrite filter_nil in Hget.
  split.
  - destruct (filter _ tbl) as [|r0 l]; simpl in Hget;
      by rewrite (wsgi_app_view (GET_schedule u dt) _ _ _ _ Hget).
  - intros Hno.
    replace (filter (λ r, row_user r = u ∧ row_date r = dt) tbl) with (@nil row) in Hget.
    + by rewrite (wsgi_app_view (GET_schedule u dt) _ _ _ _ Hget).
    + symmetry. apply elem_of_nil_inv. intros x Hx.
      apply list_elem_of_filter in Hx as [Hx Hin]. by apply (Hno x).
Qed.

Lemma store_row_twice r' tbl : store_row r' (store_row r' tbl) = store_row r' tbl.
Proof.
  unfold store_row. rewrite <- list_fmap_compose. apply list_fmap_ext.
  intros i x _. simpl. destruct (decide (row_id x = row_id r')) as [E|E].
  - by rewrite decide_True.
  - by rewrite decide_False.
Qed.

(** Written once, the same body written again binds to the same row. *)
Lemma bind_columns_again k d r r' :
  bind_columns k false (updated d (load r)) = Ok r' →
  bind_columns k false (updated d (load r')) = Ok r'.
Proof.
  intros Hb.
  destruct (bind_columns_key _ _ _ _ Hb) as (Hk & Hd & Hu).
  destruct (bind_columns_fields _ _ _ Hb) as (Hc & Hx & Hf).
  specialize (Hd _ eq_refl). specialize (Hu _ eq_refl).
  simpl in Hc, Hx, Hf.
  assert (Hc' : bind_text (default (of_text (row_checkInTime r')) (d !! "checkInTime"))
                = Ok (row_checkInTime r')).
  { destruct (d !! "checkInTime"); [done|]. apply bind_text_of_text. }
  assert (Hx' : bind_boolean (default (of_boolean (row_exercised r')) (d !! "exercised"))
                = Ok (row_exercised r')).
  { destruct (d !! "exercised"); [done|]. apply bind_boolean_of_boolean. }
  assert (Hf' : bind_text (default (of_text (row_reflection r')) (d !! "reflection"))
                = Ok (row_reflection r')).
  { destruct (d !! "reflection"); [done|]. apply bind_text_of_text. }
  unfold bind_columns, mbind, result_bind. simpl.
  rewrite Hc', Hx', Hf'. simpl. destruct r'; simpl in *. by subst.
Qed.

(** X5. PUT is idempotent: once a PUT has answered 200, the same PUT sent
    again answers the same record and leaves the table as the first left
    it, whatever the body and whatever the driver makes of its values. *)
Theorem update_schedule_idempotent k p e tbl :
  status (wsgi_app (PUT_schedule k p) e tbl).1 = 200 →
  wsgi_app (PUT_schedule k p) e (wsgi_app (PUT_schedule k p) e tbl).2
  = wsgi_app (PUT_schedule k p) e tbl.
Proof.
  intros Hs.
  destruct (update_schedule_cases k p e tbl)
    as [(msg & w' & Hrun & _)|(d & r & r' & -> & Hf & Hr & Hb & Hrun)];
    rewrite (wsgi_app_view (PUT_schedule k _) _ _ _ _ Hrun) in *; [discriminate|].
  simpl. destruct (bind_columns_key _ _ _ _ Hb) as (Hk & _).
  assert (Hr' : find_row k (store_row r' tbl) = Some r').
  { rewrite <- Hk. eapply find_row_store_row. rewrite Hk. exact Hr. }
  rewrite (wsgi_app_view (PUT_schedule k _) _ _ _ _
             (update_schedule_written _ _ _ _ _ _ Hf Hr' (bind_columns_again _ _ _ _ Hb))).
  simpl. by rewrite store_row_twice.
Qed.

Lemma store_row_other r' tbl (i : nat) r :
  tbl !! i = Some r → row_id r ≠ row_id r' → store_row r' tbl !! i = Some r.
Proof.
  intros Hi Hne. unfold store_row. rewrite list_lookup_fmap, Hi. simpl.
  by rewrite decide_False.
Qed.

(** X6. A record is changed by nothing but a PUT on its own id, and is
    never removed: over any run of requests none of which is a PUT on the id
    of a stored row, that row is found unchanged at the position it had. *)
Theorem untouched_unless_put reqs : ∀ tbl (i : nat) r,
  tbl !! i = Some r →
  Forall (λ er : env * request, targets (row_id r) er.2 = false) reqs →
  (serve_all reqs tbl).2 !! i = Some r.
Proof.
  induction reqs as [|[e req] reqs IH]; intros tbl i r Hi Hall; simpl; [done|].
  apply Forall_cons in Hall as [Hreq Hall]. simpl in Hreq.
  destruct (wsgi_app req e tbl) as [resp tbl'] eqn:Hstep.
  specialize (IH tbl' i r).
  destruct (serve_all reqs tbl') as [rs tbl'']. simpl in *. apply IH; [|done].
  pose proof (wsgi_app_effect req e tbl) as Ht. rewrite Hstep in Ht. simpl in Ht.
  destruct Ht as [[-> _]|[(p & r0 & _ & Heq & _)|(k & p & r0 & r' & -> & _ & Hk & Heq)]].
  - done.
  - injection Heq as _ ->. rewrite lookup_app_l; [done|].
    by eapply lookup_lt_Some.
  - injection Heq as _ ->. apply store_row_other; [done|].
    simpl in Hreq. apply bool_decide_eq_false in Hreq. congruence.
Qed.

(** X7. No view of the API lets an exception out, in whatever state it
    finds the session: each answers a response of its own, so neither
    registered error handler ever runs for it. *)
Theorem api_views_never_raise req w :
  api req = true →
  ∃ r w', dispatch_request req w = (Ok r, w')
          ∧ full_dispatch_request req w = (r, w').
Proof.
  assert (Hcatch : ∀ (c : M response) (h : exn → M response),
            (∀ x w0, ∃ r, h x w0 = (Ok r, w0)) →
            ∃ r w', try_except c h w = (Ok r, w')).
  { intros c h Hh. unfold try_except. destruct (c w) as [[r|x] w1]; [eauto|].
    destruct (Hh x w1) as [r Hr]. eauto. }
  intros Hapi.
  assert (H : ∃ r w', dispatch_request req w = (Ok r, w')).
  { destruct req; try discriminate; simpl; apply Hcatch; intros x w0; eexists; reflexivity. }
  destruct H as (r & w' & H). exists r, w'. split; [done|].
  unfold full_dispatch_request. by rewrite H.
Qed.


(** X9. The two lookups agree: a record GET /api/schedules/{user}/{date}
    answers is one of those GET /api/schedules/{user} lists. *)
Theorem lookup_in_user_listing u d e tbl :
  status (wsgi_app (GET_schedule u d) e tbl).1 = 200 →
  ∃ v l, (wsgi_app (GET_schedule u d) e tbl).1 = jsonify v 200
         ∧ (wsgi_app (GET_user_schedules u) e tbl).1 = jsonify (PList l) 200
         ∧ v ∈ l.
Proof.
  intros Hs. pose proof (get_schedule_run u d e tbl) as Hrun.
  pose proof (listing_run (λ r, row_user r = u) e tbl) as Hlist.
  destruct (fault e) as [msg|].
  { rewrite (wsgi_app_view (GET_schedule u d) _ _ _ _ Hrun) in Hs. discriminate. }
  destruct (filter (λ r, row_user r = u ∧ row_date r = d) tbl) as [|r0 l0] eqn:E;
    rewrite (wsgi_app_view (GET_schedule u d) _ _ _ _ Hrun) in *; [discriminate|].
  rewrite (wsgi_app_view (GET_user_schedules u) _ _ _ _ Hlist).
  eexists _, _. split; [reflexivity|]. split; [reflexivity|].
  apply list_elem_of_fmap. exists r0. split; [done|].
  assert (Hx : r0 ∈ filter (λ r, row_user r = u ∧ row_date r = d) tbl)
    by (rewrite E; left).
  apply list_elem_of_filter in Hx as [[Hu _] Hin].
  apply list_elem_of_filter. auto.
Qed.

Lemma of_text_inj o1 o2 : of_text o1 = of_text o2 → o1 = o2.
Proof. destruct o1, o2; simpl; congruence. Qed.

Lemma of_boolean_inj o1 o2 : of_boolean o1 = of_boolean o2 → o1 = o2.
Proof. destruct o1, o2; simpl; congruence. Qed.

(** X10. [to_dict] shows each of the six attributes under its own key and
    has no other key; so it loses nothing: two rows with the same dictionary
    are the same row. *)
Theorem to_dict_determines_row :
  (∀ s, ∃ m : gmap string pyval,
     to_dict_of s = PDict m
     ∧ m !! "id" = Some (id s) ∧ m !! "date" = Some (date s)
     ∧ m !! "user" = Some (user s) ∧ m !! "checkInTime" = Some (checkInTime s)
     ∧ m !! "exercised" = Some (exercised s) ∧ m !! "reflection" = Some (reflection s)
     ∧ ∀ k, is_Some (m !! k) →
            k ∈ ["id"; "date"; "user"; "checkInTime"; "exercised"; "reflection"])
  ∧ ∀ r1 r2, to_dict_of (load r1) = to_dict_of (load r2) → r1 = r2.
Proof.
  split; [apply to_dict_of_keys|].
  intros r1 r2 H.
  pose (get := λ (v : pyval) (k : string),
               match v with PDict m => m !! k | _ => None end).
  assert (Hk : ∀ k, get (to_dict_of (load r1)) k = get (to_dict_of (load r2)) k)
    by (intros k; by rewrite H).
  pose proof (Hk "id") as H1. pose proof (Hk "date") as H2.
  pose proof (Hk "user") as H3. pose proof (Hk "checkInTime") as H4.
  pose proof (Hk "exercised") as H5. pose proof (Hk "reflection") as H6.
  unfold get, to_dict_of in H1, H2, H3, H4, H5, H6.
  clear H Hk.
  repeat (rewrite lookup_insert_eq in H1 || (rewrite lookup_insert_ne in H1 by done)).
  repeat (rewrite lookup_insert_eq in H2 || (rewrite lookup_insert_ne in H2 by done)).
  repeat (rewrite lookup_insert_eq in H3 || (rewrite lookup_insert_ne in H3 by done)).
  repeat (rewrite lookup_insert_eq in H4 || (rewrite lookup_insert_ne in H4 by done)).
  repeat (rewrite lookup_insert_eq in H5 || (rewrite lookup_insert_ne in H5 by done)).
  repeat (rewrite lookup_insert_eq in H6 || (rewrite lookup_insert_ne in H6 by done)).
  destruct r1, r2. simpl in *.
  injection H1 as ->. injection H2 as ->. injection H3 as ->.
  injection H4 as H4. injection H5 as H5. injection H6 as H6.
  apply of_text_inj in H4 as ->. apply of_boolean_inj in H5 as ->.
  by apply of_text_inj in H6 as ->.
Qed.

(** X11. A create reads five keys of its body and no other: two bodies
    that agree on [date], [user], [checkInTime], [exercised] and
    [reflection] are answered alike and leave the same table, so an [id]
    or any other key a client sends has no effect. *)
Theorem add_schedule_reads_five_keys d1 d2 e tbl :
  agree ["date"; "user"; "checkInTime"; "exercised"; "reflection"] d1 d2 →
  wsgi_app (POST_schedules (Json (PDict d1))) e tbl
  = wsgi_app (POST_schedules (Json (PDict d2))) e tbl.
Proof.
  intros Ha. unfold agree in Ha. rewrite !Forall_cons in Ha.
  destruct Ha as (Hd & Hu & Hc & Hx & Hr & _).
  pose proof (add_schedule_run (Json (PDict d1)) e tbl) as H1.
  pose proof (add_schedule_run (Json (PDict d2)) e tbl) as H2.
  simpl in H1, H2. rewrite Hd, Hu, Hc, Hx, Hr in H1. rewrite <- H2 in H1.
  unfold wsgi_app, full_dispatch_request, dispatch_request. by rewrite H1.
Qed.

(** X12. An update reads [checkInTime], [exercised] and [reflection] and no
    other key: two bodies that agree on the three are answered alike and
    leave the same table, so [id], [date] or [user] in the body of a PUT
    has no effect. *)
Theorem update_schedule_reads_three_keys k d1 d2 e tbl :
  agree ["checkInTime"; "exercised"; "reflection"] d1 d2 →
  wsgi_app (PUT_schedule k (Json (PDict d1))) e tbl
  = wsgi_app (PUT_schedule k (Json (PDict d2))) e tbl.
Proof.
  intros Ha. unfold agree in Ha. rewrite !Forall_cons in Ha.
  destruct Ha as (Hc & Hx & Hr & _).
  pose proof (update_schedule_run k (Json (PDict d1)) e tbl) as H1.
  pose proof (update_schedule_run k (Json (PDict d2)) e tbl) as H2.
  unfold updated in H1, H2. simpl in H1, H2.
  rewrite Hc, Hx, Hr in H1. rewrite <- H2 in H1.
  unfold wsgi_app, full_dispatch_request, dispatch_request. by rewrite H1.
Qed.

(** X13. A PUT whose body supplies none of the three fields (the empty
    object, say) changes nothing: with the database reachable it answers 200
    with the record as stored and leaves the table as it was. *)
Theorem update_without_fields k d e tbl (i : nat) r :
  NoDup (row_id <$> tbl) → fault e = None →
  tbl !! i = Some r → row_id r = k →
  d !! "checkInTime" = None → d !! "exercised" = None → d !! "reflection" = None →
  wsgi_app (PUT_schedule k (Json (PDict d))) e tbl
  = (jsonify (to_dict_of (load r)) 200, tbl).
Proof.
  intros Hnd Hf Hi Hk Hc Hx Hr.
  assert (Hfind : find_row k tbl = Some r).
  { apply find_row_unique; [done| |done]. by eapply list_elem_of_lookup_2. }
  assert (Hup : updated d (load r) = load r).
  { unfold updated. rewrite Hc, Hx, Hr. by destruct r. }
  assert (Hb : bind_columns k false (updated d (load r)) = Ok r).
  { rewrite Hup, <- Hk. apply bind_columns_load. }
  rewrite (wsgi_app_view (PUT_schedule k _) _ _ _ _
             (update_schedule_written _ _ _ _ _ _ Hf Hfind Hb)).
  simpl. rewrite (store_row_insert r tbl i r) by done.
  by rewrite list_insert_id.
Qed.


(** X15. Without [index.html] the fallback itself fails: a static request
    for a path with no file, the root included, makes the 404 handler raise
    in its turn, and the answer is the 500 of the last handler, a JSON error
    and not a page. *)
Theorem static_without_index path e tbl :
  static_file e "index.html" = None → static_file e path = None →
  wsgi_app (GET_serve path) e tbl
  = (jsonify (PDict {["error" := PStr "Internal server error"]}) 500, tbl)
  ∧ wsgi_app (GET_static path) e tbl
    = (jsonify (PDict {["error" := PStr "Internal server error"]}) 500, tbl)
  ∧ wsgi_app (GET_serve "") e tbl
    = (jsonify (PDict {["error" := PStr "Internal server error"]}) 500, tbl).
Proof.
  intros Hi Hp. repeat split.
  - unfold wsgi_app. rewrite serve_run, static_run, Hi.
    destruct (negb (String.eqb path "") && static_exists e path); by rewrite ?Hp, ?Hi.
  - unfold wsgi_app. by rewrite static_run, Hp, Hi.
  - unfold wsgi_app. rewrite serve_run, static_run. simpl. by rewrite Hi.
Qed.

(** X16. While the database is unreachable every route that starts with a
    query (the three reads and the update) answers 500 with the error of the
    database as its [error], and so does a create whose body holds [date]
    and [user]; the table is as it was. *)
Theorem database_outage msg req e tbl :
  fault e = Some msg →
  (queries_first req = true →
   wsgi_app req e tbl = (jsonify (PDict {["error" := PStr msg]}) 500, tbl))
  ∧ (∀ d, req = POST_schedules (Json (PDict d)) →
          is_Some (d !! "date") → is_Some (d !! "user") →
          wsgi_app req e tbl = (jsonify (PDict {["error" := PStr msg]}) 500, tbl)).
Proof.
  intros Hf. split.
  - intros Hq. destruct req as [|p|k p|u d|u|path|filename| | | |]; try discriminate.
    + pose proof (listing_run (λ _, True) e tbl) as Hrun. rewrite Hf in Hrun.
      by rewrite (wsgi_app_view GET_schedules _ _ _ _ Hrun).
    + pose proof (update_schedule_run k p e tbl) as Hrun. rewrite Hf in Hrun.
      by rewrite (wsgi_app_view (PUT_schedule k p) _ _ _ _ Hrun).
    + pose proof (get_schedule_run u d e tbl) as Hrun. rewrite Hf in Hrun.
      by rewrite (wsgi_app_view (GET_schedule u d) _ _ _ _ Hrun).
    + pose proof (listing_run (λ r, row_user r = u) e tbl) as Hrun. rewrite Hf in Hrun.
      by rewrite (wsgi_app_view (GET_user_schedules u) _ _ _ _ Hrun).
  - intros d -> [dt Hd] [u Hu].
    pose proof (add_schedule_run (Json (PDict d)) e tbl) as Hrun.
    simpl in Hrun. rewrite Hd, Hu, Hf in Hrun.
    by rewrite (wsgi_app_view (POST_schedules _) _ _ _ _ Hrun).
Qed.

Lemma foldr_max_attained (k : Z) ks : foldr Z.max k ks ∈ k :: ks.
Proof.
  induction ks as [|x ks IH]; simpl; [left|].
  destruct (Z.max_spec x (foldr Z.max k ks)) as [[_ ->]|[_ ->]].
  - apply elem_of_cons in IH as [->|IH]; [left|]. right. by right.
  - right. left.
Qed.

(** The next rowid is 1 in an empty table and one more than the id of some
    row otherwise. *)
Lemma next_rowid_attained tbl :
  tbl = [] ∧ next_rowid tbl = 1 ∨ ∃ r, r ∈ tbl ∧ next_rowid tbl = 1 + row_id r.
Proof.
  destruct tbl as [|r0 tbl]; [by left|]. right.
  unfold next_rowid. rewrite fmap_cons.
  pose proof (foldr_max_attained (row_id r0) (row_id <$> tbl)) as H.
  rewrite <- fmap_cons in H. apply list_elem_of_fmap in H as (r & Hr & Hin).
  exists r. split; [done|]. by rewrite Hr.
Qed.

Lemma next_rowid_dense tbl : dense tbl → next_rowid tbl = Z.of_nat (length tbl) + 1.
Proof.
  intros Hd. destruct (next_rowid_attained tbl) as [[-> ->]|(r & Hin & Hn)]; [done|].
  apply list_elem_of_lookup in Hin as [i Hi].
  pose proof (Hd i r Hi) as Hr. pose proof (lookup_lt_Some _ _ _ Hi) as Hlt.
  destruct (lookup_lt_is_Some_2 tbl (length tbl - 1)) as [x Hx]; [lia|].
  pose proof (Hd _ x Hx) as Hxid.
  pose proof (next_rowid_above tbl x (list_elem_of_lookup_2 _ _ _ Hx)). lia.
Qed.

(** X17. Started on an empty table, the server numbers its records 1, 2,
    3, ... in the order they are created, without a gap, whatever requests
    succeed or fail in between: the row at position [i] has id [i + 1], and
    a table numbered so stays numbered so. *)
Theorem ids_are_consecutive reqs : ∀ tbl,
  dense tbl → dense (serve_all reqs tbl).2.
Proof.
  induction reqs as [|[e req] reqs IH]; intros tbl Hd; simpl; [done|].
  destruct (wsgi_app req e tbl) as [resp tbl'] eqn:Hstep.
  specialize (IH tbl'). destruct (serve_all reqs tbl') as [rs tbl'']. simpl in *.
  apply IH.
  pose proof (wsgi_app_effect req e tbl) as Ht. rewrite Hstep in Ht. simpl in Ht.
  destruct Ht as [[-> _]|[(p & r0 & _ & Heq & Hk)|(k & p & r0 & r' & _ & _ & Hk & Heq)]].
  - done.
  - injection Heq as _ ->. intros i r Hi.
    apply lookup_snoc_Some in Hi as [[_ Hi]|[-> ->]]; [by apply Hd|].
    rewrite Hk. by apply next_rowid_dense.
  - injection Heq as _ ->. intros i r Hi.
    unfold store_row in Hi. rewrite list_lookup_fmap in Hi.
    destruct (tbl !! i) as [x|] eqn:Hx; [|discriminate]. simpl in Hi.
    injection Hi as <-. pose proof (Hd i x Hx).
    destruct (decide (row_id x = row_id r')); congruence.
Qed.

(** X18. Rows and 201s go together: over any run of requests the table
    grows by exactly one row for each response with status 201, and by
    nothing else. *)
Theorem one_row_per_created reqs : ∀ tbl,
  length (serve_all reqs tbl).2
  = (length tbl + length (filter (λ r, status r = 201%Z) (serve_all reqs tbl).1))%nat.
Proof.
  induction reqs as [|[e req] reqs IH]; intros tbl; simpl; [lia|].
  destruct (wsgi_app req e tbl) as [resp tbl'] eqn:Hstep.
  specialize (IH tbl'). destruct (serve_all reqs tbl') as [rs tbl'']. simpl in *.
  rewrite IH. rewrite filter_cons.
  pose proof (wsgi_app_effect req e tbl) as Ht. rewrite Hstep in Ht. simpl in Ht.
  destruct Ht as [[-> Hs]|[(p & r0 & _ & Heq & _)|(k & p & r0 & r' & _ & _ & _ & Heq)]].
  - by rewrite decide_False.
  - injection Heq as -> ->. rewrite decide_True by done.
    rewrite length_app. simpl. lia.
  - injection Heq as -> ->. rewrite decide_False by done.
    unfold store_row. by rewrite length_fmap.
Qed.

Lemma bind_columns_rekey k k' ins s r :
  bind_columns k ins s = Ok r → bind_columns k' ins s = Ok (with_id k' r).
Proof.
  unfold bind_columns, mbind, result_bind, mret, result_ret. intros H.
  destruct (bind_text (date s)) as [d0|]; [|discriminate].
  destruct (bind_text (user s)) as [u0|]; [|discriminate].
  destruct (bind_text (checkInTime s)); [|discriminate].
  destruct (bind_boolean _); [|discriminate].
  destruct (bind_text (reflection s)); [|discriminate].
  destruct d0 as [d0|]; [|discriminate]. destruct u0 as [u0|]; [|discriminate].
  simpl in *. by injection H as <-.
Qed.

Lemma next_rowid_snoc tbl r :
  row_id r = next_rowid tbl → next_rowid (tbl ++ [r]) = row_id r + 1.
Proof.
  intros Hk.
  destruct (next_rowid_attained (tbl ++ [r])) as [[H _]|(x & Hin & Hn)].
  - by destruct tbl.
  - pose proof (next_rowid_above (tbl ++ [r]) r) as Hr.
    specialize (Hr ltac:(apply elem_of_app; right; left)).
    apply elem_of_app in Hin as [Hin|Hin].
    + apply next_rowid_above in Hin. lia.
    + apply list_elem_of_singleton in Hin as ->. lia.
Qed.

(** X19. Nothing makes a user and date unique: on a table whose rowids
    leave room for two more below the largest 64-bit one (so that SQLite
    numbers by the largest rowid plus one), a create that answered 201
    answers 201 again when it is repeated, and stores a second record, the
    same as the first in every field but the id, which is the next one. *)
Theorem create_twice p e tbl :
  next_rowid tbl < 2 ^ 63 - 1 →
  status (wsgi_app (POST_schedules p) e tbl).1 = 201 →
  ∃ r, wsgi_app (POST_schedules p) e tbl = (jsonify (to_dict_of (load r)) 201, tbl ++ [r])
       ∧ wsgi_app (POST_schedules p) e (tbl ++ [r])
         = (jsonify (to_dict_of (load (with_id (row_id r + 1) r))) 201,
            tbl ++ [r; with_id (row_id r + 1) r]).
Proof.
  intros _ Hs.
  destruct (add_schedule_cases p e tbl)
    as [(msg & w' & Hrun & _)|(d & dt & u & r & -> & Hf & Hd & Hu & Hb & Hrun)];
    rewrite (wsgi_app_view (POST_schedules _) _ _ _ _ Hrun) in *; [discriminate|].
  exists r. split; [done|].
  destruct (bind_columns_key _ _ _ _ Hb) as (Hk & _).
  apply (bind_columns_rekey _ (next_rowid (tbl ++ [r]))) in Hb.
  rewrite (wsgi_app_view (POST_schedules _) _ _ _ _
             (add_schedule_written _ _ _ _ _ _ Hf Hd Hu Hb)).
  rewrite (next_rowid_snoc tbl r Hk). simpl. by rewrite <- app_assoc.
Qed.

(** X20. An update that answers 200 shows in the next listing: the record
    it answered stands at the position of the record it replaced, and the
    listing is as long as before. *)
Theorem update_then_list k p e e' tbl (i : nat) r :
  NoDup (row_id <$> tbl) → tbl !! i = Some r → row_id r = k →
  status (wsgi_app (PUT_schedule k p) e tbl).1 = 200 →
  fault e' = None →
  ∃ v l, (wsgi_app (PUT_schedule k p) e tbl).1 = jsonify v 200
         ∧ (wsgi_app GET_schedules e' (wsgi_app (PUT_schedule k p) e tbl).2).1
           = jsonify (PList l) 200
         ∧ l !! i = Some v ∧ length l = length tbl
         ∧ ∀ (j : nat), j ≠ i →
             l !! j = (λ x, to_dict_of (load x)) <$> (tbl !! j).
Proof.
  intros Hnd Hi Hk Hs Hf.
  destruct (update_schedule_cases k p e tbl)
    as [(msg & w' & Hrun & _)|(d & r0 & r' & -> & _ & Hr & Hb & Hrun)];
    rewrite (wsgi_app_view (PUT_schedule k _) _ _ _ _ Hrun) in *; [discriminate|].
  simpl. destruct (bind_columns_key _ _ _ _ Hb) as (Hk' & _).
  rewrite (store_row_insert r' tbl i r) by (done || congruence).
  pose proof (listing_run (λ _, True) e' (<[i:=r']> tbl)) as Hlist. rewrite Hf in Hlist.
  rewrite (wsgi_app_view GET_schedules _ _ _ _ Hlist). simpl.
  assert (Hall : ∀ l : list row, filter (λ _ : row, True) l = l).
  { clear. intros l. induction l as [|x l IH]; [done|].
    rewrite filter_cons_True by done. by rewrite IH. }
  rewrite Hall. eexists _, _. split; [reflexivity|]. split; [reflexivity|].
  split; [|split].
  - rewrite list_lookup_fmap, list_lookup_insert_eq; [done|]. by eapply lookup_lt_Some.
  - by rewrite length_fmap, length_insert.
  - intros j Hj. by rewrite list_lookup_fmap, list_lookup_insert_ne.
Qed.

(** X21. A user without records is no error for the listing by user: with
    the database reachable it answers 200 with the empty array, where the
    lookup by user and date answers 404. *)
Theorem unknown_user_lists_nothing u e tbl :
  fault e = None → (∀ r, r ∈ tbl → row_user r ≠ u) →
  wsgi_app (GET_user_schedules u) e tbl = (jsonify (PList []) 200, tbl)
  ∧ ∀ d, status (wsgi_app (GET_schedule u d) e tbl).1 = 404.
Proof.
  intros Hf Hno. split.
  - pose proof (listing_run (λ r, row_user r = u) e tbl) as Hrun. rewrite Hf in Hrun.
    rewrite (wsgi_app_view (GET_user_schedules u) _ _ _ _ Hrun).
    replace (filter (λ r, row_user r = u) tbl) with (@nil row); [done|].
    symmetry. apply elem_of_nil_inv. intros x Hx.
    apply list_elem_of_filter in Hx as [Hx Hin]. by apply (Hno x).
  - intros d. pose proof (get_schedule_run u d e tbl) as Hrun. rewrite Hf in Hrun.
    replace (filter (λ r, row_user r = u ∧ row_date r = d) tbl) with (@nil row) in Hrun.
    + by rewrite (wsgi_app_view (GET_schedule u d) _ _ _ _ Hrun).
    + symmetry. apply elem_of_nil_inv. intros x Hx.
      apply list_elem_of_filter in Hx as [[Hx _] Hin]. by apply (Hno x).
Qed.

(** X22. When several records have the user and the date asked for, the
    lookup answers the one that stands first in the table, the earliest
    created. *)
Theorem lookup_answers_first u d e before r after :
  fault e = None →
  row_user r = u → row_date r = d →
  (∀ x, x ∈ before → ¬ (row_user x = u ∧ row_date x = d)) →
  wsgi_app (GET_schedule u d) e (before ++ r :: after)
  = (jsonify (to_dict_of (load r)) 200, before ++ r :: after).
Proof.
  intros Hf Hu Hd Hno.
  pose proof (get_schedule_run u d e (before ++ r :: after)) as Hrun.
  rewrite Hf, filter_app, filter_cons_True in Hrun by done.
  replace (filter (λ r, row_user r = u ∧ row_date r = d) before) with (@nil row) in Hrun.
  - by rewrite (wsgi_app_view (GET_schedule u d) _ _ _ _ Hrun).
  - symmetry. apply elem_of_nil_inv. intros x Hx.
    apply list_elem_of_filter in Hx as [Hx Hin]. by apply (Hno x).
Qed.

Lemma bind_columns_not_null k ins s r :
  bind_columns k ins s = Ok r → date s ≠ PNone ∧ user s ≠ PNone.
Proof.
  unfold bind_columns, mbind, result_bind, mret, result_ret. intros H.
  split; intros Hn; rewrite Hn in H; simpl in H.
  - destruct (bind_text (user s)); [|discriminate].
    destruct (bind_text (checkInTime s)); [|discriminate].
    destruct (bind_boolean _); [|discriminate].
    destruct (bind_text (reflection s)); discriminate.
  - destruct (bind_text (date s)) as [d0|]; [|discriminate].
    destruct (bind_text (checkInTime s)); [|discriminate].
    destruct (bind_boolean _); [|discriminate].
    destruct (bind_text (reflection s)); [|discriminate].
    destruct d0; discriminate.
Qed.

(** X23. [date] and [user] are [nullable=False]: a create whose body gives
    null for either is refused with a 500 and an error body and stores
    nothing, whatever else the body holds. *)
Theorem add_schedule_null_required d e tbl :
  d !! "date" = Some PNone ∨ d !! "user" = Some PNone →
  ∃ msg, wsgi_app (POST_schedules (Json (PDict d))) e tbl
         = (jsonify (PDict {["error" := PStr msg]}) 500, tbl).
Proof.
  intros Hnull.
  destruct (add_schedule_cases (Json (PDict d)) e tbl)
    as [(msg & w' & Hrun & Ht & _)|(d' & dt & u & r & Hp & _ & Hd & Hu & Hb & Hrun)];
    rewrite (wsgi_app_view (POST_schedules _) _ _ _ _ Hrun).
  - exists msg. by rewrite Ht.
  - exfalso. injection Hp as <-.
    destruct (bind_columns_not_null _ _ _ _ Hb) as [Hnd Hnu]. simpl in Hnd, Hnu.
    destruct Hnull as [H|H]; congruence.
Qed.

Lemma bind_columns_insert_exercised k s r :
  bind_columns k true s = Ok r →
  bind_boolean (apply_default (PBool false) (exercised s)) = Ok (row_exercised r).
Proof.
  unfold bind_columns, mbind, result_bind, mret, result_ret. intros H.
  destruct (bind_text (date s)) as [d0|]; [|discriminate].
  destruct (bind_text (user s)) as [u0|]; [|discriminate].
  destruct (bind_text (checkInTime s)); [|discriminate].
  destruct (bind_boolean _); [|discriminate].
  destruct (bind_text (reflection s)); [|discriminate].
  destruct d0 as [d0|]; [|discriminate]. destruct u0 as [u0|]; [|discriminate].
  simpl in H. by injection H as <-.
Qed.

(** X24. [exercised] defaults to false: a create that answers 201 for a
    body without [exercised], or with null for it, has stored false. *)
Theorem add_schedule_exercised_default d e tbl :
  d !! "exercised" = None ∨ d !! "exercised" = Some PNone →
  status (wsgi_app (POST_schedules (Json (PDict d))) e tbl).1 = 201 →
  ∃ r, wsgi_app (POST_schedules (Json (PDict d))) e tbl
       = (jsonify (to_dict_of (load r)) 201, tbl ++ [r])
       ∧ row_exercised r = Some false.
Proof.
  intros Hx Hs.
  destruct (add_schedule_cases (Json (PDict d)) e tbl)
    as [(msg & w' & Hrun & _)|(d' & dt & u & r & Hp & _ & _ & _ & Hb & Hrun)];
    rewrite (wsgi_app_view (POST_schedules _) _ _ _ _ Hrun) in *; [discriminate|].
  injection Hp as <-. exists r. split; [done|].
  apply bind_columns_insert_exercised in Hb. simpl in Hb.
  destruct Hx as [Hx|Hx]; rewrite Hx in Hb; simpl in Hb; congruence.
Qed.

(** X25. Null is a value for an update, not an omission: a PUT that
    answers 200 has cleared every one of the three fields its body gives
    null for. *)
Theorem update_null_clears k d e tbl :
  status (wsgi_app (PUT_schedule k (Json (PDict d))) e tbl).1 = 200 →
  ∃ r', (wsgi_app (PUT_schedule k (Json (PDict d))) e tbl).1
        = jsonify (to_dict_of (load r')) 200
        ∧ find_row k (wsgi_app (PUT_schedule k (Json (PDict d))) e tbl).2 = Some r'
        ∧ (d !! "checkInTime" = Some PNone → row_checkInTime r' = None)
        ∧ (d !! "exercised" = Some PNone → row_exercised r' = None)
        ∧ (d !! "reflection" = Some PNone → row_reflection r' = None).
Proof.
  intros Hs.
  destruct (update_schedule_cases k (Json (PDict d)) e tbl)
    as [(msg & w' & Hrun & _)|(d' & r & r' & Hp & _ & Hr & Hb & Hrun)];
    rewrite (wsgi_app_view (PUT_schedule k _) _ _ _ _ Hrun) in *; [discriminate|].
  injection Hp as <-. exists r'. split; [done|].
  destruct (bind_columns_key _ _ _ _ Hb) as (Hk & _).
  destruct (bind_columns_fields _ _ _ Hb) as (Hc & Hx & Hf). simpl in Hc, Hx, Hf.
  split.
  { simpl. rewrite <- Hk. eapply find_row_store_row. rewrite Hk. exact Hr. }
  split; [|split]; intros Hn.
  - rewrite Hn in Hc. simpl in Hc. congruence.
  - rewrite Hn in Hx. simpl in Hx. congruence.
  - rewrite Hn in Hf. simpl in Hf. congruence.
Qed.

End Application.

(** * Worked examples *)

Module Examples.
Import Sample.

(** The example of the specification, computed: record 1 takes
    [exercised = true] and nothing else moves. *)
Example put_exercised_only :
  wsgi_app strict_text strict_boolean
    (PUT_schedule 1 (Json (PDict exercised_only))) site stored
  = (jsonify (to_dict_of (load (mkRow 1 "2024-01-01" "alice" None (Some true) None))) 200,
     [mkRow 1 "2024-01-01" "alice" None (Some true) None; bob]).
Proof. vm_compute. reflexivity. Qed.

(** A create on a table of two rows is given id 3. *)
Example post_new_entry :
  wsgi_app strict_text strict_boolean (POST_schedules (Json (PDict new_entry))) site stored
  = (jsonify (to_dict_of (load (mkRow 3 "2024-02-02" "carol" None (Some false) None))) 201,
     stored ++ [mkRow 3 "2024-02-02" "carol" None (Some false) None]).
Proof. vm_compute. reflexivity. Qed.

(** Outside the declared shape of a body: a null [date] meets the NOT NULL
    constraint, a string for [exercised] is refused by a strict driver, and
    a null [exercised] on create gives way to the column default. *)
Example post_null_date :
  ∃ msg, wsgi_app strict_text strict_boolean
           (POST_schedules (Json (PDict (<["date" := PNone]> new_entry)))) site stored
         = (jsonify (error_body msg) 500, stored).
Proof. eexists. vm_compute. reflexivity. Qed.

Example put_exercised_text :
  ∃ msg, wsgi_app strict_text strict_boolean
           (PUT_schedule 1 (Json (PDict {["exercised" := PStr "yes"]}))) site stored
         = (jsonify (error_body msg) 500, stored).
Proof. eexists. vm_compute. reflexivity. Qed.

Example post_null_exercised :
  wsgi_app strict_text strict_boolean
    (POST_schedules (Json (PDict (<["exercised" := PNone]> new_entry)))) site stored
  = (jsonify (to_dict_of (load (mkRow 3 "2024-02-02" "carol" None (Some false) None))) 201,
     stored ++ [mkRow 3 "2024-02-02" "carol" None (Some false) None]).
Proof. vm_compute. reflexivity. Qed.

(** A directory of the static folder is not a file: the 404 handler answers
    with the shell. *)
Example get_directory :
  wsgi_app strict_text strict_boolean (GET_serve "static") site stored
  = (mkResponse 200 (FileBody "<!doctype html>"), stored).
Proof. vm_compute. reflexivity. Qed.

Example test_db_down :
  wsgi_app strict_text strict_boolean GET_test_db
    (mkEnv (Some "unable to open database file") (λ _, false) (λ _, None) "20240101" false)
    stored
  = (mkResponse 200 (TextBody "Database connection failed: unable to open database file"),
     stored).
Proof. vm_compute. reflexivity. Qed.

(** The example of the specification: [{exercised: true}] sent to record 1. *)
Lemma update_schedule_frame_witness :
  NoDup (row_id <$> stored)
  ∧ ∃ r', wsgi_app strict_text strict_boolean
            (PUT_schedule 1 (Json (PDict exercised_only))) site stored
          = (jsonify (to_dict_of (load r')) 200, <[0%nat:=r']> stored)
          ∧ checkInTime (load r')
            = default (checkInTime (load alice)) (exercised_only !! "checkInTime")
          ∧ exercised (load r')
            = default (exercised (load alice)) (exercised_only !! "exercised")
          ∧ reflection (load r')
            = default (reflection (load alice)) (exercised_only !! "reflection")
          ∧ row_id r' = row_id alice ∧ row_date r' = row_date alice
          ∧ row_user r' = row_user alice.
Proof.
  assert (Hnd : NoDup (row_id <$> stored)) by compute_done.
  split; [exact Hnd|].
  destruct (update_schedule_frame strict_text strict_boolean site stored 1
              (Json (PDict exercised_only)) Hnd) as (_ & _ & Hset).
  apply (Hset 0%nat alice exercised_only); reflexivity.
Defined.



Lemma update_unknown_id_witness :
  (7 ∉ (row_id <$> stored))
  ∧ ∃ msg, wsgi_app strict_text strict_boolean
             (PUT_schedule 7 (Json (PDict exercised_only))) site stored
           = (jsonify (PDict {["error" := PStr msg]}) 500, stored)
           ∧ update_schedule strict_text strict_boolean 7 (Json (PDict exercised_only))
               (fresh site stored)
             = on_error (mkExn SQLAlchemyError msg) (fresh site stored).
Proof.
  assert (H : 7 ∉ (row_id <$> stored)) by compute_done.
  split; [exact H|].
  apply (update_unknown_id strict_text strict_boolean 7 _ site stored H).
Defined.

Lemma add_schedule_missing_key_witness :
  has_key (PDict no_user) "date" && has_key (PDict no_user) "user" = false
  ∧ ∃ msg, wsgi_app strict_text strict_boolean
             (POST_schedules (Json (PDict no_user))) site stored
           = (jsonify (PDict {["error" := PStr msg]}) 500, stored).
Proof.
  split; [reflexivity|].
  apply (add_schedule_missing_key strict_text strict_boolean (PDict no_user) site stored).
  reflexivity.
Defined.

Lemma get_schedule_found_or_404_witness :
  fault site = None
  ∧ alice ∈ stored
  ∧ ∃ r', r' ∈ stored ∧ row_user r' = "alice" ∧ row_date r' = "2024-01-01"
          ∧ wsgi_app strict_text strict_boolean
              (GET_schedule "alice" "2024-01-01") site stored
            = (jsonify (to_dict_of (load r')) 200, stored).
Proof.
  split; [reflexivity|]. split; [left|].
  apply (proj2 (get_schedule_found_or_404 strict_text strict_boolean
                  "alice" "2024-01-01" site stored eq_refl) alice);
    [left|reflexivity|reflexivity].
Defined.

Lemma get_user_schedules_all_and_only_witness :
  fault site = None
  ∧ wsgi_app strict_text strict_boolean (GET_user_schedules "alice") site stored
    = (jsonify (PList ((λ r, to_dict_of (load r))
                         <$> filter (λ r, row_user r = "alice") stored)) 200, stored).
Proof.
  split; [reflexivity|].
  apply (get_user_schedules_all_and_only strict_text strict_boolean "alice" site stored).
  reflexivity.
Defined.

Lemma ids_assigned_once_witness :
  status (wsgi_app strict_text strict_boolean
            (POST_schedules (Json (PDict new_entry))) site stored).1 = 201
  ∧ ∃ r, wsgi_app strict_text strict_boolean
           (POST_schedules (Json (PDict new_entry))) site stored
         = (jsonify (to_dict_of (load r)) 201, stored ++ [r])
         ∧ row_id r ∉ (row_id <$> stored).
Proof.
  assert (H : status (wsgi_app strict_text strict_boolean
                        (POST_schedules (Json (PDict new_entry))) site stored).1 = 201)
    by (vm_compute; reflexivity).
  split; [exact H|].
  exact (proj1 (ids_assigned_once strict_text strict_boolean) site stored _ H).
Defined.

(** [date] and [user] are both in the body, [date] is null: 500, not 201. *)
Lemma add_schedule_present_but_null :
  ¬ (∀ d e tbl,
       has_key (PDict d) "date" = true → has_key (PDict d) "user" = true →
       status (wsgi_app strict_text strict_boolean
                 (POST_schedules (Json (PDict d))) e tbl).1 = 201).
Proof.
  intros H. specialize (H Fixtures.null_date site stored eq_refl eq_refl).
  vm_compute in H. discriminate.
Qed.

Lemma add_schedule_created_witness :
  fault site = None
  ∧ new_entry !! "date" = Some (PStr "2024-02-02")
  ∧ new_entry !! "user" = Some (PStr "carol")
  ∧ ∃ r (m : gmap string pyval),
      wsgi_app strict_text strict_boolean
        (POST_schedules (Json (PDict new_entry))) site stored
      = (jsonify (PDict m) 201, stored ++ [r])
      ∧ (row_id r ∉ (row_id <$> stored))
      ∧ m !! "id" = Some (PInt (row_id r))
      ∧ m !! "date" = Some (PStr "2024-02-02")
      ∧ m !! "user" = Some (PStr "carol")
      ∧ m !! "checkInTime" = Some PNone
      ∧ m !! "exercised" = Some (PBool false)
      ∧ m !! "reflection" = Some PNone.
Proof.
  split; [reflexivity|]. split; [reflexivity|]. split; [reflexivity|].
  destruct (add_schedule_created strict_text strict_boolean new_entry
              "2024-02-02" "carol" site stored)
    as (r & m & H0 & H1 & H2 & H3 & H4 & H5 & H6 & H7 & _); try reflexivity.
  exists r, m. repeat (split; [assumption|]). exact H7.
Defined.

Lemma spa_fallback_witness :
  static_file site "dashboard" = None
  ∧ wsgi_app strict_text strict_boolean (GET_serve "dashboard") site stored
    = wsgi_app strict_text strict_boolean (GET_serve "") site stored.
Proof.
  split; [reflexivity|].
  apply (proj1 (spa_fallback strict_text strict_boolean "dashboard" site stored eq_refl)).
Defined.

End Examples.

(** * Scenarios *)

Module Scenarios.
Import Sample Fixtures.

Lemma reads_never_write_witness :
  mutating (GET_user_schedules "alice") = false
  ∧ (wsgi_app strict_text strict_boolean (GET_user_schedules "alice") down stored).2
    = stored.
Proof.
  split; [reflexivity|].
  apply (reads_never_write strict_text strict_boolean). reflexivity.
Defined.


Lemma insert_then_lookup_witness :
  new_entry !! "user" = Some (PStr "carol")
  ∧ new_entry !! "date" = Some (PStr "2024-02-02")
  ∧ status (wsgi_app strict_text strict_boolean (GET_schedule "carol" "2024-02-02") site
              (wsgi_app strict_text strict_boolean
                 (POST_schedules (Json (PDict new_entry))) site stored).2).1 = 200.
Proof.
  split; [reflexivity|]. split; [reflexivity|].
  apply (insert_then_lookup strict_text strict_boolean new_entry "carol" "2024-02-02"
           site site stored); [reflexivity|reflexivity|vm_compute; reflexivity|reflexivity].
Defined.

Lemma update_schedule_idempotent_witness :
  status (wsgi_app strict_text strict_boolean
            (PUT_schedule 1 (Json (PDict exercised_only))) site stored).1 = 200
  ∧ wsgi_app strict_text strict_boolean (PUT_schedule 1 (Json (PDict exercised_only))) site
      (wsgi_app strict_text strict_boolean
         (PUT_schedule 1 (Json (PDict exercised_only))) site stored).2
    = wsgi_app strict_text strict_boolean
        (PUT_schedule 1 (Json (PDict exercised_only))) site stored.
Proof.
  assert (H : status (wsgi_app strict_text strict_boolean
            (PUT_schedule 1 (Json (PDict exercised_only))) site stored).1 = 200)
    by (vm_compute; reflexivity).
  split; [exact H|].
  apply (update_schedule_idempotent strict_text strict_boolean _ _ site stored H).
Defined.

(** A create, a listing and an update of record 1 leave record 2 alone. *)
Lemma untouched_unless_put_witness :
  stored !! 1%nat = Some bob
  ∧ (serve_all strict_text strict_boolean
       [(site, POST_schedules (Json (PDict new_entry)));
        (down, GET_schedules);
        (site, PUT_schedule 1 (Json (PDict exercised_only)))] stored).2 !! 1%nat
    = Some bob.
Proof.
  split; [reflexivity|].
  apply (untouched_unless_put strict_text strict_boolean); [reflexivity|].
  repeat constructor.
Defined.

Lemma api_views_never_raise_witness :
  api (PUT_schedule 7 (NotJson NotFound)) = true
  ∧ ∃ r w', dispatch_request strict_text strict_boolean
              (PUT_schedule 7 (NotJson NotFound)) (fresh down stored) = (Ok r, w')
            ∧ full_dispatch_request strict_text strict_boolean
                (PUT_schedule 7 (NotJson NotFound)) (fresh down stored) = (r, w').
Proof.
  split; [reflexivity|].
  apply (api_views_never_raise strict_text strict_boolean). reflexivity.
Defined.


Lemma lookup_in_user_listing_witness :
  status (wsgi_app strict_text strict_boolean
            (GET_schedule "bob" "2024-01-01") site stored).1 = 200
  ∧ ∃ v l, (wsgi_app strict_text strict_boolean
              (GET_schedule "bob" "2024-01-01") site stored).1 = jsonify v 200
           ∧ (wsgi_app strict_text strict_boolean
                (GET_user_schedules "bob") site stored).1 = jsonify (PList l) 200
           ∧ v ∈ l.
Proof.
  assert (H : status (wsgi_app strict_text strict_boolean
                        (GET_schedule "bob" "2024-01-01") site stored).1 = 200)
    by (vm_compute; reflexivity).
  split; [exact H|].
  apply (lookup_in_user_listing strict_text strict_boolean _ _ site stored H).
Defined.

Lemma to_dict_determines_row_witness :
  to_dict_of (load alice) = to_dict_of (load alice) ∧ alice = alice.
Proof.
  split; [reflexivity|]. apply (proj2 to_dict_determines_row alice alice). reflexivity.
Defined.

(** An [id] sent with a create is not read. *)
Lemma add_schedule_reads_five_keys_witness :
  agree ["date"; "user"; "checkInTime"; "exercised"; "reflection"] forged_entry new_entry
  ∧ wsgi_app strict_text strict_boolean
      (POST_schedules (Json (PDict forged_entry))) site stored
    = wsgi_app strict_text strict_boolean
        (POST_schedules (Json (PDict new_entry))) site stored.
Proof.
  assert (H : agree ["date"; "user"; "checkInTime"; "exercised"; "reflection"]
                forged_entry new_entry)
    by (repeat constructor).
  split; [exact H|].
  apply (add_schedule_reads_five_keys strict_text strict_boolean _ _ site stored H).
Defined.

(** An [id] and a [user] sent with an update are not read. *)
Lemma update_schedule_reads_three_keys_witness :
  agree ["checkInTime"; "exercised"; "reflection"] forged_update exercised_only
  ∧ wsgi_app strict_text strict_boolean
      (PUT_schedule 1 (Json (PDict forged_update))) site stored
    = wsgi_app strict_text strict_boolean
        (PUT_schedule 1 (Json (PDict exercised_only))) site stored.
Proof.
  assert (H : agree ["checkInTime"; "exercised"; "reflection"] forged_update exercised_only)
    by (repeat constructor).
  split; [exact H|].
  apply (update_schedule_reads_three_keys strict_text strict_boolean 1 _ _ site stored H).
Defined.

Lemma update_without_fields_witness :
  NoDup (row_id <$> stored)
  ∧ wsgi_app strict_text strict_boolean (PUT_schedule 2 (Json (PDict empty_body))) site stored
    = (jsonify (to_dict_of (load bob)) 200, stored).
Proof.
  assert (Hnd : NoDup (row_id <$> stored)) by compute_done.
  split; [exact Hnd|].
  apply (update_without_fields strict_text strict_boolean 2 empty_body site stored 1%nat bob
           Hnd); reflexivity.
Defined.


Lemma static_without_index_witness :
  static_file no_index "index.html" = None
  ∧ static_file no_index "dashboard" = None
  ∧ wsgi_app strict_text strict_boolean (GET_serve "dashboard") no_index stored
    = (jsonify (PDict {["error" := PStr "Internal server error"]}) 500, stored).
Proof.
  split; [reflexivity|]. split; [reflexivity|].
  apply (proj1 (static_without_index strict_text strict_boolean
                  "dashboard" no_index stored eq_refl eq_refl)).
Defined.

Lemma database_outage_witness :
  fault down = Some "unable to open database file"
  ∧ queries_first (PUT_schedule 1 (Json (PDict exercised_only))) = true
  ∧ wsgi_app strict_text strict_boolean
      (PUT_schedule 1 (Json (PDict exercised_only))) down stored
    = (jsonify (PDict {["error" := PStr "unable to open database file"]}) 500, stored).
Proof.
  split; [reflexivity|]. split; [reflexivity|].
  apply (proj1 (database_outage strict_text strict_boolean _
                  (PUT_schedule 1 (Json (PDict exercised_only))) down stored eq_refl)).
  reflexivity.
Defined.

(** From the empty table, through a failed create and an outage. *)
Lemma ids_are_consecutive_witness :
  dense []
  ∧ dense (serve_all strict_text strict_boolean
             [(site, POST_schedules (Json (PDict new_entry)));
              (site, POST_schedules (Json (PDict no_user)));
              (down, POST_schedules (Json (PDict new_entry)));
              (site, POST_schedules (Json (PDict new_entry)))] []).2.
Proof.
  assert (H : dense []) by (intros i r Hi; discriminate).
  split; [exact H|].
  apply (ids_are_consecutive strict_text strict_boolean _ [] H).
Defined.

Lemma create_twice_witness :
  next_rowid stored < 2 ^ 63 - 1
  ∧ status (wsgi_app strict_text strict_boolean
            (POST_schedules (Json (PDict new_entry))) site stored).1 = 201
  ∧ ∃ r, wsgi_app strict_text strict_boolean
           (POST_schedules (Json (PDict new_entry))) site stored
         = (jsonify (to_dict_of (load r)) 201, stored ++ [r])
         ∧ wsgi_app strict_text strict_boolean
             (POST_schedules (Json (PDict new_entry))) site (stored ++ [r])
           = (jsonify (to_dict_of (load (with_id (row_id r + 1) r))) 201,
              stored ++ [r; with_id (row_id r + 1) r]).
Proof.
  assert (H : status (wsgi_app strict_text strict_boolean
                        (POST_schedules (Json (PDict new_entry))) site stored).1 = 201)
    by (vm_compute; reflexivity).
  assert (Hroom : next_rowid stored < 2 ^ 63 - 1) by (vm_compute; reflexivity).
  split; [exact Hroom|]. split; [exact H|].
  apply (create_twice strict_text strict_boolean _ site stored Hroom H).
Defined.

Lemma update_then_list_witness :
  NoDup (row_id <$> stored)
  ∧ stored !! 0%nat = Some alice
  ∧ ∃ v l, (wsgi_app strict_text strict_boolean
              (PUT_schedule 1 (Json (PDict exercised_only))) site stored).1 = jsonify v 200
           ∧ (wsgi_app strict_text strict_boolean GET_schedules site
                (wsgi_app strict_text strict_boolean
                   (PUT_schedule 1 (Json (PDict exercised_only))) site stored).2).1
             = jsonify (PList l) 200
           ∧ l !! 0%nat = Some v ∧ length l = length stored
           ∧ ∀ (j : nat), j ≠ 0%nat →
               l !! j = (λ x, to_dict_of (load x)) <$> (stored !! j).
Proof.
  assert (Hnd : NoDup (row_id <$> stored)) by compute_done.
  split; [exact Hnd|]. split; [reflexivity|].
  apply (update_then_list strict_text strict_boolean 1 _ site site stored 0%nat alice Hnd);
    [reflexivity|reflexivity|vm_compute; reflexivity|reflexivity].
Defined.

Lemma unknown_user_lists_nothing_witness :
  fault site = None
  ∧ (∀ r, r ∈ stored → row_user r ≠ "carol")
  ∧ wsgi_app strict_text strict_boolean (GET_user_schedules "carol") site stored
    = (jsonify (PList []) 200, stored).
Proof.
  assert (H : ∀ r, r ∈ stored → row_user r ≠ "carol").
  { intros r Hr. apply elem_of_cons in Hr as [->|Hr]; [discriminate|].
    apply elem_of_cons in Hr as [->|Hr]; [discriminate|]. inversion Hr. }
  split; [reflexivity|]. split; [exact H|].
  apply (proj1 (unknown_user_lists_nothing strict_text strict_boolean
                  "carol" site stored eq_refl H)).
Defined.

Lemma lookup_answers_first_witness :
  fault site = None
  ∧ (∀ x, x ∈ [alice] → ¬ (row_user x = "bob" ∧ row_date x = "2024-01-01"))
  ∧ wsgi_app strict_text strict_boolean (GET_schedule "bob" "2024-01-01") site
      ([alice] ++ bob :: [bob_again])
    = (jsonify (to_dict_of (load bob)) 200, [alice] ++ bob :: [bob_again]).
Proof.
  assert (H : ∀ x, x ∈ [alice] → ¬ (row_user x = "bob" ∧ row_date x = "2024-01-01")).
  { intros x Hx. apply elem_of_cons in Hx as [->|Hx]; [|inversion Hx].
    intros [Hu _]. discriminate. }
  split; [reflexivity|]. split; [exact H|].
  apply (lookup_answers_first strict_text strict_boolean "bob" "2024-01-01" site
           [alice] bob [bob_again] eq_refl eq_refl eq_refl H).
Defined.

Lemma add_schedule_null_required_witness :
  (null_date !! "date" = Some PNone ∨ null_date !! "user" = Some PNone)
  ∧ ∃ msg, wsgi_app strict_text strict_boolean
             (POST_schedules (Json (PDict null_date))) site stored
           = (jsonify (PDict {["error" := PStr msg]}) 500, stored).
Proof.
  assert (H : null_date !! "date" = Some PNone ∨ null_date !! "user" = Some PNone)
    by (left; reflexivity).
  split; [exact H|].
  apply (add_schedule_null_required strict_text strict_boolean null_date site stored H).
Defined.

Lemma add_schedule_exercised_default_witness :
  (null_exercised !! "exercised" = None ∨ null_exercised !! "exercised" = Some PNone)
  ∧ status (wsgi_app strict_text strict_boolean
              (POST_schedules (Json (PDict null_exercised))) site stored).1 = 201
  ∧ ∃ r, wsgi_app strict_text strict_boolean
           (POST_schedules (Json (PDict null_exercised))) site stored
         = (jsonify (to_dict_of (load r)) 201, stored ++ [r])
         ∧ row_exercised r = Some false.
Proof.
  assert (H : null_exercised !! "exercised" = None
              ∨ null_exercised !! "exercised" = Some PNone)
    by (right; reflexivity).
  assert (Hs : status (wsgi_app strict_text strict_boolean
              (POST_schedules (Json (PDict null_exercised))) site stored).1 = 201)
    by (vm_compute; reflexivity).
  split; [exact H|]. split; [exact Hs|].
  apply (add_schedule_exercised_default strict_text strict_boolean
           null_exercised site stored H Hs).
Defined.

(** bob's check-in time, set to null. *)
Lemma update_null_clears_witness :
  status (wsgi_app strict_text strict_boolean
            (PUT_schedule 2 (Json (PDict clear_time))) site stored).1 = 200
  ∧ clear_time !! "checkInTime" = Some PNone
  ∧ ∃ r', (wsgi_app strict_text strict_boolean
             (PUT_schedule 2 (Json (PDict clear_time))) site stored).1
          = jsonify (to_dict_of (load r')) 200
          ∧ row_checkInTime r' = None.
Proof.
  assert (Hs : status (wsgi_app strict_text strict_boolean
            (PUT_schedule 2 (Json (PDict clear_time))) site stored).1 = 200)
    by (vm_compute; reflexivity).
  split; [exact Hs|]. split; [reflexivity|].
  destruct (update_null_clears strict_text strict_boolean 2 clear_time site stored Hs)
    as (r' & Hr & _ & Hc & _).
  exists r'. split; [exact Hr|]. apply Hc. reflexivity.
Defined.

End Scenarios.
